(** * Beaune NDVI notebook: a shallow embedding and its properties

    The notebook [notebooks/notebook.ipynb] is a straight-line sequence of
    cells.  Every cell builds Earth Engine expressions (the Python client
    only records which method was called on which receiver; nothing is
    computed locally), sends a few blocking requests to the external
    libraries ([getInfo], [add_ee_layer], ...) and updates a handful of
    local Python objects (the [wine_scores] DataFrame, the [images] dict,
    the visualisation dicts, the maps).

    - Earth Engine client objects are the expression trees of module [ee].
    - The cells are programs of the monad [Py]: requests to the outside
      world, reads and writes of the local objects, and exceptions.
    - [run] executes a program against an arbitrary external engine.
    - Section [Raster] gives the per-pixel meaning of the band arithmetic
      on exact numbers, Section [Raster64] the same in binary64.  *)

From Stdlib Require Import List String Ascii ZArith QArith Qround Qfield Bool Lia.
From Stdlib Require Import DecimalString.
From Stdlib Require DecimalZ DecimalPos.
From Stdlib Require Floats.
Import ListNotations.

Local Open Scope string_scope.
Local Open Scope Z_scope.
Local Open Scope list_scope.

(** ** Python values that cross the boundary with the external libraries

    The values of the image properties and of the region statistic that
    the notebook asks for: null, a number or a string.  ([getInfo] gives
    lists and dictionaries for other objects; no request of the notebook
    is for one.)  [PNaN] is the float that pandas puts where a number is
    missing. *)

Inductive pyval : Type :=
| PNone
| PInt (z : Z)
| PFloat (q : Q)
| PNaN
| PStr (s : string).

Inductive exn : Type :=
| EEException (msg : string)   (* raised inside the external libraries *)
| TypeError
| NameError (var : string)
| KeyError (key : string).

(** An f-string: literal text interleaved with formatted values. *)
Inductive piece : Type :=
| Text (s : string)
| Fmt (v : pyval).

Definition fstring : Type := list piece.

(** [str(year)] for an integer. *)
Definition str (z : Z) : string := NilZero.string_of_int (Z.to_int z).

(** [s[n:]] *)
Definition slice_from (n : nat) (s : string) : string :=
  substring n (String.length s - n) s.

(** Python's [==] on the scalar values a DataFrame cell can hold. *)
Definition py_eq (a b : pyval) : bool :=
  match a, b with
  | PInt x, PInt y => Z.eqb x y
  | PInt x, PFloat y => Qeq_bool (inject_Z x) y
  | PFloat x, PInt y => Qeq_bool x (inject_Z y)
  | PFloat x, PFloat y => Qeq_bool x y
  | PStr x, PStr y => String.eqb x y
  | _, _ => false              (* also NaN == NaN *)
  end.

(** [round(x, 2)] on an exact rational: nearest multiple of 1/100, ties to
    the even one. *)
Definition round_half_even (q : Q) : Z :=
  let f := Qfloor q in
  let r := (q - inject_Z f)%Q in
  match (r ?= 1 # 2)%Q with
  | Lt => f
  | Gt => f + 1
  | Eq => if Z.even f then f else f + 1
  end.

Definition round2 (q : Q) : Q := (inject_Z (round_half_even (q * 100)) / 100)%Q.

Definition is_number (v : pyval) : bool :=
  match v with
  | PInt _ | PFloat _ | PNaN => true
  | _ => false
  end.

(** ** The Earth Engine client: expression trees

    Each constructor is one method of the client API; the receiver is the
    last argument so that [x |> m a] reads as [x.m(a)]. *)

Notation "x |> f" := (f x) (at level 59, left associativity, only parsing).

Module ee.

Inductive Geometry : Type :=
| Geometry_Polygon (coords : list (list (list Q)))
| Geometry_Point (coords : list Q).

Inductive Reducer : Type :=
| Reducer_mean.

Inductive ImageCollection_ : Type :=
| ImageCollection (id : string)
| filterDate (start stop : string) (c : ImageCollection_)
| filterBounds (g : Geometry) (c : ImageCollection_)
| sort (prop : string) (c : ImageCollection_).

Inductive Image : Type :=
| first (c : ImageCollection_)
| constant (q : Q)                       (* a Python number used as an operand *)
| clip (g : Geometry) (i : Image)
| select (pattern : string) (i : Image)
| multiply (j : Image) (i : Image)
| add (j : Image) (i : Image)
| subtract (j : Image) (i : Image)
| divide (j : Image) (i : Image)
| addBands (src : Image) (names : option (list string)) (overwrite : bool) (i : Image)
| rename (name : string) (i : Image).

Inductive Dictionary : Type :=
| reduceRegion (reducer : Reducer) (geometry : Geometry) (scale : Q) (maxPixels : Q) (i : Image)
| image_props (i : Image).               (* the dictionary geemap.image_props returns *)

Inductive ComputedObject : Type :=
| get (key : string) (d : Dictionary).

End ee.

(** A Python number where the API expects an image. *)
Coercion ee.constant : Q >-> ee.Image.

(** ** Local Python objects *)

(** A dict given by a literal: keys in declaration order. *)
Fixpoint lookup {V : Type} (k : string) (d : list (string * V)) : option V :=
  match d with
  | [] => None
  | (k', v) :: d' => if String.eqb k k' then Some v else lookup k d'
  end.

(** [d[k] = v]: replaces the value of an existing key, appends a new key. *)
Fixpoint setitem {V : Type} (k : string) (v : V) (d : list (string * V)) : list (string * V) :=
  match d with
  | [] => [(k, v)]
  | (k', v') :: d' => if String.eqb k k' then (k, v) :: d' else (k', v') :: setitem k v d'
  end.

(** Values found in the visualisation parameters. *)
Inductive vis_value : Type :=
| VStrs (l : list string)
| VNum (q : Q).

Definition VisParams : Type := list (string * vis_value).

(** [{'name': ..., 'properties': {...}}] *)
Record VisDict : Type := { vis_name : string; vis_properties : VisParams }.

Record Layer : Type :=
  { ee_object : ee.Image; vis_params : VisParams; layer_name : fstring }.

(** *** pandas.DataFrame, as far as the notebook uses it *)

Record DataFrame : Type := { columns : list string; rows : list (list pyval) }.

(** The dtype pandas infers for a column of Python objects: whole numbers
    give int64; numbers with missing values or floats give float64, where
    an int is held as a float and a missing value as NaN; anything else
    is kept as objects. *)
Inductive dtype : Type := int64 | float64 | object.

Definition is_int (v : pyval) : bool :=
  match v with
  | PInt _ => true
  | _ => false
  end.

Definition is_missing (v : pyval) : bool :=
  match v with
  | PNone | PNaN => true
  | _ => false
  end.

Definition infer_dtype (vals : list pyval) : dtype :=
  if forallb is_int vals then int64
  else if forallb (fun v => is_number v || is_missing v) vals && existsb is_number vals
       then float64
       else object.

Definition cast (dt : dtype) (v : pyval) : pyval :=
  match dt, v with
  | float64, PInt z => PFloat (inject_Z z)
  | float64, PNone => PNaN
  | _, _ => v
  end.

Fixpoint cast_row (dts : list dtype) (r : list pyval) : list pyval :=
  match dts, r with
  | dt :: dts', v :: r' => cast dt v :: cast_row dts' r'
  | _, _ => r
  end.

(** [pandas.DataFrame(data, columns=cols)] for a list of tuples. *)
Definition pandas_DataFrame (data : list (list pyval)) (cols : list string) : DataFrame :=
  let dts := map (fun i => infer_dtype (map (fun r => nth i r PNone) data))
                 (seq 0 (List.length cols)) in
  {| columns := cols; rows := map (cast_row dts) data |}.

Fixpoint column_index (c : string) (cols : list string) : option nat :=
  match cols with
  | [] => None
  | c' :: cols' => if String.eqb c c' then Some O else option_map S (column_index c cols')
  end.

(** [df[c]]: the column as a list, [None] when there is no such column. *)
Definition df_getitem (c : string) (df : DataFrame) : option (list pyval) :=
  match column_index c (columns df) with
  | Some i => Some (map (fun r => nth i r PNone) (rows df))
  | None => None
  end.

(** [series == v] *)
Definition series_eq (v : pyval) (s : list pyval) : list bool :=
  map (fun x => py_eq x v) s.

Fixpoint set_nth (i : nat) (v : pyval) (r : list pyval) : list pyval :=
  match i, r with
  | O, _ :: r' => v :: r'
  | S i', x :: r' => x :: set_nth i' v r'
  | _, [] => []
  end.

(** Apply [f] to the rows selected by the mask, keep the others. *)
Fixpoint where_mask (f g : list pyval -> list pyval) (mask : list bool)
         (rs : list (list pyval)) : list (list pyval) :=
  match rs, mask with
  | [], _ => []
  | r :: rs', b :: mask' => (if b then f r else g r) :: where_mask f g mask' rs'
  | r :: rs', [] => g r :: where_mask f g [] rs'
  end.

(** [df.loc[mask, c] = v] for a scalar [v].  An unknown column label
    enlarges the frame: the new column holds [v] on the selected rows and
    a missing value on the others.  A frame carries no dtype once it is
    built: the columns the notebook assigns to ('Mean NDVI', 'Photo Date')
    are object columns, which hold a scalar as it is given. *)
Definition loc_setitem (mask : list bool) (c : string) (v : pyval) (df : DataFrame) : DataFrame :=
  match column_index c (columns df) with
  | Some i =>
      {| columns := columns df;
         rows := where_mask (set_nth i v) (fun r => r) mask (rows df) |}
  | None =>
      {| columns := columns df ++ [c];
         rows := where_mask (fun r => r ++ [v]) (fun r => r ++ [PNone]) mask (rows df) |}
  end.

(** What a cell leaves in its output area. *)
Inductive output : Type :=
| Printed (text : fstring)
| DisplayedMap (var : string) (layers : list Layer)
| DisplayedTable (df : DataFrame).

(** The mutable objects of the notebook's global namespace.  A variable
    that no cell has assigned yet is absent.  [maps] keeps, for every map,
    the layers the notebook has added to it, one per call and in the order
    of the calls. *)
Record Notebook : Type :=
  { dicts : list (string * VisDict);
    maps : list (string * list Layer);
    wine_scores : option DataFrame;
    images : option (list (string * (pyval * ee.Image)));
    outputs : list output }.

Definition fresh_kernel : Notebook :=
  {| dicts := []; maps := []; wine_scores := None; images := None; outputs := [] |}.

Definition with_dicts (f : list (string * VisDict) -> list (string * VisDict)) (s : Notebook) :=
  {| dicts := f (dicts s); maps := maps s; wine_scores := wine_scores s;
     images := images s; outputs := outputs s |}.
Definition with_maps (f : list (string * list Layer) -> list (string * list Layer)) (s : Notebook) :=
  {| dicts := dicts s; maps := f (maps s); wine_scores := wine_scores s;
     images := images s; outputs := outputs s |}.
Definition with_wine_scores (w : option DataFrame) (s : Notebook) :=
  {| dicts := dicts s; maps := maps s; wine_scores := w;
     images := images s; outputs := outputs s |}.
Definition with_images (i : option (list (string * (pyval * ee.Image)))) (s : Notebook) :=
  {| dicts := dicts s; maps := maps s; wine_scores := wine_scores s;
     images := i; outputs := outputs s |}.
Definition with_output (o : output) (s : Notebook) :=
  {| dicts := dicts s; maps := maps s; wine_scores := wine_scores s;
     images := images s; outputs := outputs s ++ [o] |}.

(** ** Requests to the outside world

    Everything the local process asks of the external libraries and blocks
    on.  The last two constructors are the part of the libraries' call
    surface that persists data (an Earth Engine export task, a file written
    by pandas); no cell of the notebook uses them. *)

Inductive request : Type :=
| geemap_Map (center : Q * Q) (zoom : Z) (layer_ctrl : bool)
             (data_ctrl : option bool) (add_google_map : bool)
| getInfo (o : ee.ComputedObject)
| image_props_of (i : ee.Image)        (* geemap.image_props: round trips of its own *)
| add_ee_layer (map : string) (ee_object : ee.Image) (vis_params : VisParams) (name : fstring)
| add_colorbar_branca (map : string) (colors vmin vmax : vis_value)
                      (layer_name position : option string)
| ee_tile_layer (ee_object : ee.Image) (vis_params : VisParams) (name : fstring)
| split_map (map : string) (left_layer right_layer : Layer) (left_label right_label : fstring)
| Export_image_toDrive (image : ee.Image) (description : string)
| to_csv (df : DataFrame) (path : string).

Definition persists (r : request) : bool :=
  match r with
  | Export_image_toDrive _ _ | to_csv _ _ => true
  | _ => false
  end.

Definition renders (r : request) : option VisParams :=
  match r with
  | add_ee_layer _ _ v _ | ee_tile_layer _ v _ => Some v
  | _ => None
  end.

(** ** The monad of notebook code *)

Inductive Py (A : Type) : Type :=
| Ret (a : A)
| Raise (x : exn)
| Ask (r : request) (k : pyval -> Py A)
| GetState (k : Notebook -> Py A)
| SetState (s : Notebook) (k : Py A).

Arguments Ret {A} a.
Arguments Raise {A} x.
Arguments Ask {A} r k.
Arguments GetState {A} k.
Arguments SetState {A} s k.

Fixpoint bind {A B : Type} (m : Py A) (f : A -> Py B) : Py B :=
  match m with
  | Ret a => f a
  | Raise x => Raise x
  | Ask r k => Ask r (fun v => bind (k v) f)
  | GetState k => GetState (fun s => bind (k s) f)
  | SetState s k => SetState s (bind k f)
  end.

Notation "x <- m ;; k" := (bind m (fun x => k))
  (at level 61, m at next level, right associativity).
Notation "m ;; k" := (bind m (fun _ => k))
  (at level 61, right associativity).

Definition call (r : request) : Py pyval := Ask r Ret.
Definition modify (f : Notebook -> Notebook) : Py unit :=
  GetState (fun s => SetState (f s) (Ret tt)).

(** [for x in xs: body] *)
Fixpoint for_ {X : Type} (xs : list X) (body : X -> Py unit) : Py unit :=
  match xs with
  | [] => Ret tt
  | x :: xs' => body x ;; for_ xs' body
  end.

(** Built-ins and methods of the local objects. *)

(** [round(v, 2)]: an int is returned as it is, a float is rounded, anything
    else has no [__round__]. *)
Definition round_value (v : pyval) : option pyval :=
  match v with
  | PInt z => Some (PInt z)
  | PFloat q => Some (PFloat (round2 q))
  | PNaN => Some PNaN
  | _ => None
  end.

Definition round_ (v : pyval) : Py pyval :=
  match round_value v with
  | Some r => Ret r
  | None => Raise TypeError
  end.

Definition print (text : fstring) : Py unit := modify (with_output (Printed text)).

(** [geemap.image_props(img)]: the library blocks on the engine while it
    assembles the dictionary, and can fail there; what it returns is an
    Earth Engine dictionary like any other. *)
Definition geemap_image_props (img : ee.Image) : Py ee.Dictionary :=
  call (image_props_of img) ;; Ret (ee.image_props img).

Definition var_dict (v : string) : Py VisDict :=
  GetState (fun s => match lookup v (dicts s) with
                     | Some d => Ret d
                     | None => Raise (NameError v)
                     end).

Definition assign_dict (v : string) (d : VisDict) : Py unit :=
  modify (with_dicts (setitem v d)).

Definition getitem (k : string) (d : VisParams) : Py vis_value :=
  match lookup k d with
  | Some x => Ret x
  | None => Raise (KeyError k)
  end.

Definition var_map (v : string) : Py (list Layer) :=
  GetState (fun s => match lookup v (maps s) with
                     | Some l => Ret l
                     | None => Raise (NameError v)
                     end).

Definition new_Map (v : string) (center : Q * Q) (zoom : Z) (layer_ctrl : bool)
           (data_ctrl : option bool) (add_google_map : bool) : Py unit :=
  call (geemap_Map center zoom layer_ctrl data_ctrl add_google_map) ;;
  modify (with_maps (setitem v [])).


Definition Map_split_map (m : string) (left_layer right_layer : Layer)
           (left_label right_label : fstring) : Py unit :=
  var_map m ;;
  call (split_map m left_layer right_layer left_label right_label) ;;
  modify (with_maps (setitem m [left_layer; right_layer])).

Definition display_map (v : string) : Py unit :=
  layers <- var_map v ;;
  modify (with_output (DisplayedMap v layers)).

Definition var_wine_scores : Py DataFrame :=
  GetState (fun s => match wine_scores s with
                     | Some df => Ret df
                     | None => Raise (NameError "wine_scores")
                     end).

Definition display_wine_scores : Py unit :=
  df <- var_wine_scores ;;
  modify (with_output (DisplayedTable df)).

(** [wine_scores.loc[wine_scores[key] == x, c] = v] *)
Definition wine_scores_loc_set (key : string) (x : pyval) (c : string) (v : pyval) : Py unit :=
  df <- var_wine_scores ;;
  match df_getitem key df with
  | None => Raise (KeyError key)
  | Some series =>
      modify (with_wine_scores (Some (loc_setitem (series_eq x series) c v df)))
  end.

(** Method calls whose keyword arguments are themselves evaluated by the
    caller: the receiver is looked up first, then the arguments in the
    order they are written, then the call is made. *)

(** One more layer added to map [m].  (geemap itself drops an earlier
    layer of the map when a later one is given the same name; the names
    written in the cells are all different, those built in the loop are
    the same only when two years come back with the same date and the same
    rounded mean.) *)
Definition append_layer (m : string) (l : Layer) (ms : list (string * list Layer)) :=
  match lookup m ms with
  | Some layers => setitem m (layers ++ [l]) ms
  | None => ms
  end.

Definition Map_add_ee_layer (m : string) (ee_object : ee.Image) (vis_params : Py VisParams)
           (name : Py fstring) : Py unit :=
  var_map m ;;
  p <- vis_params ;;
  n <- name ;;
  call (add_ee_layer m ee_object p n) ;;
  modify (with_maps (append_layer m {| ee_object := ee_object; vis_params := p; layer_name := n |})).

Definition Map_add_colorbar_branca (m : string) (colors vmin vmax : Py vis_value)
           (layer_name position : option string) : Py unit :=
  var_map m ;;
  c <- colors ;;
  lo <- vmin ;;
  hi <- vmax ;;
  call (add_colorbar_branca m c lo hi layer_name position) ;;
  Ret tt.

Definition images_setitem (k : string) (v : pyval * ee.Image) : Py unit :=
  GetState (fun s => match images s with
                     | Some d => SetState (with_images (Some (setitem k v d)) s) (Ret tt)
                     | None => Raise (NameError "images")
                     end).

(** [d['properties']] and [d['name']] for a visualisation dict held in the
    global [v]. *)
Definition dict_properties (v : string) : Py VisParams :=
  d <- var_dict v ;; Ret (vis_properties d).
Definition dict_name (v : string) : Py string :=
  d <- var_dict v ;; Ret (vis_name d).

Definition geemap_ee_tile_layer (ee_object : ee.Image) (vis_params : Py VisParams)
           (name : fstring) : Py Layer :=
  p <- vis_params ;;
  call (ee_tile_layer ee_object p name) ;;
  Ret {| ee_object := ee_object; vis_params := p; layer_name := name |}.

(** ** The notebook, cell by cell (numbered as in the .ipynb; markdown
       cells have no code) *)

Definition ESC : string := String (ascii_of_nat 27) "".

(** *** Cell 2 *)
Definition cell_2 : Py unit :=
  new_Map "burgundy_map" (47.02882844813948, 4.948176654205355)%Q 11 true (Some false) false.

(** *** Cell 4 *)
Definition clip_area : ee.Geometry :=
  ee.Geometry_Polygon
    [[[4.647364477; 46.9062950917]; [5.1135967769; 46.9062950917];
      [5.1135967769; 47.1193160686]; [4.647364477; 47.1193160686];
      [4.647364477; 46.9062950917]]]%Q.
Definition study_area : ee.Geometry := ee.Geometry_Point [4.744932; 47.040085]%Q.
Definition study_date : string * string := ("2022-08-01", "2022-08-31").

Definition image_2022 : ee.Image :=
  ee.ImageCollection "LANDSAT/LC09/C02/T1_L2"
    |> ee.filterDate (fst study_date) (snd study_date)
    |> ee.filterBounds study_area
    |> ee.sort "CLOUD_COVER"
    |> ee.first
    |> ee.clip clip_area.

(** *** Cell 6 *)
Definition props : ee.Dictionary := ee.image_props image_2022.

Definition cell_6 : Py (pyval * pyval) :=
  props <- geemap_image_props image_2022 ;;
  landsat_date <- call (getInfo (props |> ee.get "IMAGE_DATE")) ;;
  landsat_cloud <- call (getInfo (props |> ee.get "CLOUD_COVER_LAND")) ;;
  print [Text ("The clearest Landsat-9 photo during the 2022 harvest season for our region was taken on "
               ++ ESC ++ "[1m")%string;
         Fmt landsat_date;
         Text (ESC ++ "[0m with a cloud cover of " ++ ESC ++ "[1m")%string;
         Fmt landsat_cloud;
         Text ("%" ++ ESC ++ "[0m")%string] ;;
  Ret (landsat_date, landsat_cloud).

(** *** Cell 9 *)
Definition applyScaleFactors (image : ee.Image) : ee.Image :=
  let opticalBands := image |> ee.select "SR_B." |> ee.multiply 0.0000275%Q |> ee.add (-0.2)%Q in
  let thermalBands := image |> ee.select "ST_B.*" |> ee.multiply 0.00341802%Q |> ee.add 149.0%Q in
  image |> ee.addBands opticalBands None true |> ee.addBands thermalBands None true.

Definition landsat_8_data_2022 : ee.Image := applyScaleFactors image_2022.

(** *** Cell 11.  ([ndvi_legend], a dict of label strings, is declared in
    the same cell and never used.) *)
Definition landsat_nat : VisDict :=
  {| vis_name := "Natural Color (4,3,2)";
     vis_properties := [("bands", VStrs ["SR_B4"; "SR_B3"; "SR_B2"]);
                        ("min", VNum 0.0); ("max", VNum 0.3)] |}.

Definition landsat_IR : VisDict :=
  {| vis_name := "False Color (5,4,3)";
     vis_properties := [("bands", VStrs ["SR_B5"; "SR_B4"; "SR_B3"]);
                        ("min", VNum 0.0); ("max", VNum 0.5)] |}.

Definition landsat_veg : VisDict :=
  {| vis_name := "Vegatation Visualization (6,5,4)";
     vis_properties := [("bands", VStrs ["SR_B6"; "SR_B5"; "SR_B4"]);
                        ("min", VNum 0.0); ("max", VNum 0.7)] |}.

Definition vis_ndvi : VisDict :=
  {| vis_name := "NDVI";
     vis_properties :=
       [("min", VNum (-0.2)); ("max", VNum 1.0);
        ("palette", VStrs ["FFFFFF"; "CE7E45"; "DF923D"; "F1B555"; "FCD163"; "99B718";
                           "74A901"; "66A000"; "529400"; "3E8601"; "207401"; "056201";
                           "004C00"; "023B01"; "012E01"; "011D01"; "011301"])] |}.

Definition cell_11 : Py unit :=
  assign_dict "landsat_nat" landsat_nat ;;
  assign_dict "landsat_IR" landsat_IR ;;
  assign_dict "landsat_veg" landsat_veg ;;
  assign_dict "vis_ndvi" vis_ndvi.

(** *** Cell 13 *)
Definition cell_13 (landsat_8_data_2022 : ee.Image) : Py unit :=
  Map_add_ee_layer "burgundy_map" landsat_8_data_2022
    (dict_properties "landsat_IR")
    (n <- dict_name "landsat_IR" ;; Ret [Text "2022 "; Fmt (PStr n)]) ;;
  Map_add_ee_layer "burgundy_map" landsat_8_data_2022
    (dict_properties "landsat_nat")
    (n <- dict_name "landsat_nat" ;; Ret [Text "2022 "; Fmt (PStr n)]) ;;
  display_map "burgundy_map".

(** *** Cell 16 *)
Definition landsat_NIR : ee.Image := image_2022 |> ee.select "SR_B5".
Definition landsat_red : ee.Image := image_2022 |> ee.select "SR_B4".

Definition landsat_ndvi : ee.Image :=
  landsat_NIR |> ee.subtract landsat_red
              |> ee.divide (landsat_NIR |> ee.add landsat_red)
              |> ee.rename "Landsat NDVI".

(** *** Cell 18 *)
Definition vis_ndvi_property (k : string) : Py vis_value :=
  p <- dict_properties "vis_ndvi" ;; getitem k p.

Definition cell_18 : Py unit :=
  Map_add_ee_layer "burgundy_map" landsat_ndvi
    (dict_properties "vis_ndvi") (Ret [Text "Landsat NDVI"]) ;;
  Map_add_colorbar_branca "burgundy_map"
    (vis_ndvi_property "palette") (vis_ndvi_property "min") (vis_ndvi_property "max")
    (Some "Landsat NDVI") None ;;
  display_map "burgundy_map".

(** *** Cell 21 *)
Definition sentinel_2022 : ee.Image :=
  ee.ImageCollection "COPERNICUS/S2_SR_HARMONIZED"
    |> ee.filterDate (fst study_date) (snd study_date)
    |> ee.filterBounds study_area
    |> ee.sort "HIGH_PROBA_CLOUDS_PERCENTAGE"
    |> ee.first
    |> ee.clip clip_area.

Definition sentinel_2022_data : ee.Image := sentinel_2022 |> ee.divide 10000%Q.

(** *** Cell 23 *)
Definition props2 : ee.Dictionary := ee.image_props sentinel_2022.

Definition cell_23 : Py (pyval * pyval) :=
  props2 <- geemap_image_props sentinel_2022 ;;
  sentinel_date <- call (getInfo (props2 |> ee.get "IMAGE_DATE")) ;;
  cloudy <- call (getInfo (props2 |> ee.get "CLOUDY_PIXEL_PERCENTAGE")) ;;
  sentinel_cloud <- round_ cloudy ;;
  print [Text ("The clearest Sentinel photo during the 2022 harvest season for our region was taken on "
               ++ ESC ++ "[1m")%string;
         Fmt sentinel_date;
         Text (ESC ++ "[0m with a cloud cover of " ++ ESC ++ "[1m")%string;
         Fmt sentinel_cloud;
         Text ("%" ++ ESC ++ "[0m")%string] ;;
  Ret (sentinel_date, sentinel_cloud).

(** *** Cell 25 *)
Definition sentinel_nat : VisDict :=
  {| vis_name := "Natural Color (4,3,2)";
     vis_properties := [("bands", VStrs ["B4"; "B3"; "B2"]);
                        ("min", VNum 0.0); ("max", VNum 0.3)] |}.

Definition sentinel_IR : VisDict :=
  {| vis_name := "False Color (8,4,3)";
     vis_properties := [("bands", VStrs ["B8"; "B4"; "B3"]);
                        ("min", VNum 0.0); ("max", VNum 0.5)] |}.

Definition cell_25 : Py unit :=
  assign_dict "sentinel_nat" sentinel_nat ;;
  assign_dict "sentinel_IR" sentinel_IR.

(** *** Cell 26 *)
Definition cell_26 : Py unit :=
  new_Map "sentinel_map" (47.02882844813948, 4.948176654205355)%Q 11 true (Some false) false ;;
  Map_add_ee_layer "sentinel_map" sentinel_2022_data
    (dict_properties "sentinel_nat")
    (n <- dict_name "sentinel_nat" ;; Ret [Text n]) ;;
  Map_add_ee_layer "sentinel_map" sentinel_2022_data
    (dict_properties "sentinel_IR")
    (n <- dict_name "sentinel_IR" ;; Ret [Text n]) ;;
  display_map "sentinel_map".

(** *** Cell 28 *)
Definition sentinel_NIR : ee.Image := sentinel_2022_data |> ee.select "B8".
Definition sentinel_red : ee.Image := sentinel_2022_data |> ee.select "B4".

Definition sentinel_ndvi : ee.Image :=
  sentinel_NIR |> ee.subtract sentinel_red
               |> ee.divide (sentinel_NIR |> ee.add sentinel_red)
               |> ee.rename "Sentinel NDVI".

(** *** Cells 30 and 31 *)
Definition cell_30 (landsat_date sentinel_date : pyval) : Py unit :=
  landsat_layer <- geemap_ee_tile_layer landsat_ndvi
                     (dict_properties "vis_ndvi") [Text "Landsat NDVI"] ;;
  sentinel_layer <- geemap_ee_tile_layer sentinel_ndvi
                      (dict_properties "vis_ndvi") [Text "Sentinel NDVI"] ;;
  new_Map "split" (47.02882844813948, 4.948176654205355)%Q 11 true (Some false) false ;;
  Map_split_map "split" landsat_layer sentinel_layer
    [Text "<center>Landsat 9 NDVI<br>"; Fmt landsat_date; Text "</center>"]
    [Text "<center>Sentinel-2 NDVI<br>"; Fmt sentinel_date; Text "</center>"] ;;
  Map_add_colorbar_branca "split"
    (vis_ndvi_property "palette") (vis_ndvi_property "min") (vis_ndvi_property "max")
    None None.

Definition cell_31 : Py unit := display_map "split".

(** *** Cell 36 *)
Definition scores : list (list pyval) :=
  [[PInt 2017; PInt 93; PNone; PStr ""];
   [PInt 2018; PInt 92; PNone; PStr ""];
   [PInt 2019; PInt 95; PNone; PStr ""];
   [PInt 2020; PInt 94; PNone; PStr ""];
   [PInt 2021; PNone; PNone; PStr ""];
   [PInt 2022; PNone; PNone; PStr ""]].

Definition wine_scores_columns : list string :=
  ["Year"; "Wine Score"; "Mean NDVI"; "Photo Date"].

Definition cell_36 : Py unit :=
  modify (with_wine_scores (Some (pandas_DataFrame scores wine_scores_columns))) ;;
  display_wine_scores.

(** *** Cell 37: the per-year loop *)
Definition years : list Z := [2017; 2018; 2019; 2020; 2021; 2022].

Definition image (year : Z) : ee.Image :=
  ee.ImageCollection "COPERNICUS/S2_SR_HARMONIZED"
    |> ee.filterDate (str year ++ slice_from 4 (fst study_date))%string
                     (str year ++ slice_from 4 (snd study_date))%string
    |> ee.filterBounds study_area
    |> ee.sort "HIGH_PROBA_CLOUDS_PERCENTAGE"
    |> ee.first
    |> ee.clip clip_area.

Definition image_data (year : Z) : ee.Image := image year |> ee.divide 10000%Q.

Definition NIR (year : Z) : ee.Image := image_data year |> ee.select "B8".
Definition red (year : Z) : ee.Image := image_data year |> ee.select "B4".
Definition ndvi (year : Z) : ee.Image :=
  NIR year |> ee.subtract (red year) |> ee.divide (NIR year |> ee.add (red year)).

Definition mean_ndvi (year : Z) : ee.Dictionary :=
  ndvi year |> ee.reduceRegion ee.Reducer_mean clip_area 10%Q 1e9%Q.

Definition image_info (year : Z) : ee.Dictionary := ee.image_props (image year).

Definition loop_body (year : Z) : Py unit :=
  mean_final <- call (getInfo (mean_ndvi year |> ee.get "B8")) ;;
  image_info <- geemap_image_props (image year) ;;
  date <- call (getInfo (image_info |> ee.get "IMAGE_DATE")) ;;
  wine_scores_loc_set "Year" (PInt year) "Mean NDVI" mean_final ;;
  wine_scores_loc_set "Year" (PInt year) "Photo Date" date ;;
  Map_add_ee_layer "ndvi_map" (ndvi year)
    (dict_properties "vis_ndvi")
    (r <- round_ mean_final ;; Ret [Fmt date; Text " - Mean NDVI: "; Fmt r]) ;;
  cloud <- call (getInfo (image_info |> ee.get "CLOUD_COVERAGE_ASSESSMENT")) ;;
  rounded <- round_ cloud ;;
  print [Text "Cloud coverage for the best photo from August "; Fmt (PInt year);
         Text " was "; Fmt rounded; Text "%"] ;;
  images_setitem (str year) (mean_final, ndvi year).

Definition cell_37 : Py unit :=
  modify (with_images (Some [])) ;;
  new_Map "ndvi_map" (47.02882844813948, 4.948176654205355)%Q 11 true None false ;;
  for_ years loop_body.

(** *** Cells 39 and 41 *)
Definition cell_39 : Py unit :=
  Map_add_colorbar_branca "ndvi_map"
    (vis_ndvi_property "palette") (vis_ndvi_property "min") (vis_ndvi_property "max")
    None (Some "bottomright") ;;
  display_map "ndvi_map".

Definition cell_41 : Py unit := display_wine_scores.

(** *** The whole notebook, top to bottom.  [scale] is what cell 9 applies
    to [image_2022]. *)
Definition notebook_with (scale : ee.Image -> ee.Image) : Py unit :=
  cell_2 ;;
  landsat <- cell_6 ;;
  cell_11 ;;
  cell_13 (scale image_2022) ;;
  cell_18 ;;
  sentinel <- cell_23 ;;
  cell_25 ;;
  cell_26 ;;
  cell_30 (fst landsat) (fst sentinel) ;;
  cell_31 ;;
  cell_36 ;;
  cell_37 ;;
  cell_39 ;;
  cell_41.

Definition notebook : Py unit := notebook_with applyScaleFactors.

(** ** Running a program against the outside world *)

Definition response : Type := (exn + pyval)%type.
Definition exchange : Type := (request * response)%type.

(** The external side: it sees the exchanges so far and the new request. *)
Definition Engine : Type := list exchange -> request -> response.

Record Result (A : Type) : Type :=
  { final : Notebook; trace : list exchange; outcome : (exn + A)%type }.
Arguments final {A} r.
Arguments trace {A} r.
Arguments outcome {A} r.

Fixpoint run {A : Type} (e : Engine) (h : list exchange) (m : Py A) (s : Notebook) : Result A :=
  match m with
  | Ret a => {| final := s; trace := []; outcome := inr a |}
  | Raise x => {| final := s; trace := []; outcome := inl x |}
  | Ask r k =>
      match e h r with
      | inl x => {| final := s; trace := [(r, inl x)]; outcome := inl x |}
      | inr v =>
          let res := run e (h ++ [(r, inr v)]) (k v) s in
          {| final := final res; trace := (r, inr v) :: trace res; outcome := outcome res |}
      end
  | GetState k => run e h (k s) s
  | SetState s' k => run e h k s'
  end.

Definition execute (e : Engine) : Result unit := run e [] notebook fresh_kernel.

(** Weakest precondition for a postcondition over the exchanges so far,
    the local objects and the way the program ends, whatever the outside
    world answers. *)
Fixpoint wp {A : Type} (m : Py A) (h : list exchange) (s : Notebook)
         (Q : list exchange -> Notebook -> exn + A -> Prop) : Prop :=
  match m with
  | Ret a => Q h s (inr a)
  | Raise x => Q h s (inl x)
  | Ask r k =>
      (forall x, Q (h ++ [(r, inl x)]) s (inl x)) /\
      (forall v, wp (k v) (h ++ [(r, inr v)]) s Q)
  | GetState k => wp (k s) h s Q
  | SetState s' k => wp k h s' Q
  end.

(** ** What the band arithmetic means, pixel by pixel

    The images live on the external engine.  What follows is the engine's
    documented behaviour for the methods the notebook calls, at one pixel:
    an image is its list of named band values there, or nothing where the
    pixel is masked or the engine rejects the expression. *)

Definition pixel : Type := (Z * Z)%type.
Definition bands : Type := list (string * Q).

(** Band selectors are regular expressions that must match the whole band
    name; the notebook uses literal characters, [.] and [*]. *)
Inductive atom : Type :=
| AnyChar
| Lit (c : ascii).

Fixpoint re_parse (p : string) : list (atom * bool) :=
  match p with
  | EmptyString => []
  | String c p' =>
      let a := if Ascii.eqb c "." then AnyChar else Lit c in
      match p' with
      | String "*" p'' => (a, true) :: re_parse p''
      | _ => (a, false) :: re_parse p'
      end
  end.

Definition atom_ok (a : atom) (c : ascii) : bool :=
  match a with
  | AnyChar => true
  | Lit c' => Ascii.eqb c c'
  end.

Fixpoint re_match (re : list (atom * bool)) (s : string) : bool :=
  match re with
  | [] => match s with EmptyString => true | _ => false end
  | (a, false) :: re' =>
      match s with
      | String c s' => atom_ok a c && re_match re' s'
      | EmptyString => false
      end
  | (a, true) :: re' =>
      (fix star (s : string) : bool :=
         re_match re' s ||
         match s with
         | String c s' => atom_ok a c && star s'
         | EmptyString => false
         end) s
  end.

Definition matches (pattern name : string) : bool := re_match (re_parse pattern) name.

(** Binary operators pair the bands of the two images: position by
    position when both have as many bands, a single band against every
    band of the other image otherwise; the result keeps the names of the
    first image, or of the longer one. *)
Definition band_arith {N : Type} (f : N -> N -> N) (a b : list (string * N))
  : option (list (string * N)) :=
  if Nat.eqb (List.length a) (List.length b)
  then Some (map (fun xy => (fst (fst xy), f (snd (fst xy)) (snd (snd xy)))) (combine a b))
  else match b with
       | [(_, y)] => Some (map (fun x => (fst x, f (snd x) y)) a)
       | _ => match a with
              | [(_, x)] => Some (map (fun y => (fst y, f x (snd y))) b)
              | _ => None
              end
       end.

Definition has_band {N : Type} (name : string) (bs : list (string * N)) : bool :=
  existsb (fun b => String.eqb name (fst b)) bs.

(** [addBands(src, names, overwrite)] *)
Definition add_bands {N : Type} (src : list (string * N)) (names : option (list string))
           (overwrite : bool) (dst : list (string * N)) : list (string * N) :=
  let chosen := match names with
                | None => src
                | Some l => filter (fun b => existsb (String.eqb (fst b)) l) src
                end in
  if overwrite
  then map (fun b => match lookup (fst b) chosen with
                     | Some v => (fst b, v)
                     | None => b
                     end) dst
       ++ filter (fun b => negb (has_band (fst b) dst)) chosen
  else dst ++ map (fun b => if has_band (fst b) dst
                            then ((fst b ++ "_1")%string, snd b) else b) chosen.

Section Raster.

(** The catalogue: the bands of the first image of a collection at a
    pixel, if it has one there. *)
Variable scene : ee.ImageCollection_ -> pixel -> option bands.
(** Whether a pixel lies inside a geometry. *)
Variable inside : ee.Geometry -> pixel -> bool.

Definition lift2 (f : Q -> Q -> Q) (a b : option bands) : option bands :=
  match a, b with
  | Some x, Some y => band_arith f x y
  | _, _ => None
  end.

Fixpoint eval (p : pixel) (i : ee.Image) : option bands :=
  match i with
  | ee.first c => scene c p
  | ee.constant q => Some [("constant", q)]
  | ee.clip g i' => if inside g p then eval p i' else None
  | ee.select pattern i' =>
      option_map (filter (fun b => matches pattern (fst b))) (eval p i')
  | ee.multiply j i' => lift2 Qmult (eval p i') (eval p j)
  | ee.add j i' => lift2 Qplus (eval p i') (eval p j)
  | ee.subtract j i' => lift2 Qminus (eval p i') (eval p j)
  | ee.divide j i' => lift2 Qdiv (eval p i') (eval p j)   (* x / 0 is 0 *)
  | ee.addBands src names overwrite i' =>
      match eval p i', eval p src with
      | Some dst, Some s => Some (add_bands s names overwrite dst)
      | _, _ => None
      end
  | ee.rename name i' =>
      match eval p i' with
      | Some [(_, v)] => Some [(name, v)]
      | _ => None
      end
  end.

End Raster.

(** *** The same expressions in binary64

    The engine computes with floating-point numbers.  [eval64] is [eval]
    with IEEE 754 double precision in place of the rationals: a Python
    number becomes the nearest double, and x / 0 is 0 as above. *)

Definition Z2F (z : Z) : PrimFloat.float :=
  match z with
  | Z0 => PrimFloat.zero
  | Zpos p => PrimFloat.of_uint63 (Uint63.of_Z (Zpos p))
  | Zneg p => PrimFloat.opp (PrimFloat.of_uint63 (Uint63.of_Z (Zpos p)))
  end.

Definition Q2F (q : Q) : PrimFloat.float :=
  PrimFloat.div (Z2F (Qnum q)) (Z2F (Zpos (Qden q))).

Definition div64 (x y : PrimFloat.float) : PrimFloat.float :=
  if PrimFloat.eqb y PrimFloat.zero then PrimFloat.zero else PrimFloat.div x y.

Definition bands64 : Type := list (string * PrimFloat.float).

Section Raster64.

Variable scene : ee.ImageCollection_ -> pixel -> option bands64.
Variable inside : ee.Geometry -> pixel -> bool.

Definition lift64 (f : PrimFloat.float -> PrimFloat.float -> PrimFloat.float)
           (a b : option bands64) : option bands64 :=
  match a, b with
  | Some x, Some y => band_arith f x y
  | _, _ => None
  end.

Fixpoint eval64 (p : pixel) (i : ee.Image) : option bands64 :=
  match i with
  | ee.first c => scene c p
  | ee.constant q => Some [("constant", Q2F q)]
  | ee.clip g i' => if inside g p then eval64 p i' else None
  | ee.select pattern i' =>
      option_map (filter (fun b => matches pattern (fst b))) (eval64 p i')
  | ee.multiply j i' => lift64 PrimFloat.mul (eval64 p i') (eval64 p j)
  | ee.add j i' => lift64 PrimFloat.add (eval64 p i') (eval64 p j)
  | ee.subtract j i' => lift64 PrimFloat.sub (eval64 p i') (eval64 p j)
  | ee.divide j i' => lift64 div64 (eval64 p i') (eval64 p j)
  | ee.addBands src names overwrite i' =>
      match eval64 p i', eval64 p src with
      | Some dst, Some s => Some (add_bands s names overwrite dst)
      | _, _ => None
      end
  | ee.rename name i' =>
      match eval64 p i' with
      | Some [(_, v)] => Some [(name, v)]
      | _ => None
      end
  end.

End Raster64.

(** A Sentinel pixel with 3000 in the near infrared and 1000 in the red. *)
Definition sample_scene64 : ee.ImageCollection_ -> pixel -> option bands64 :=
  fun _ _ => Some [("B4", Z2F 1000); ("B8", Z2F 3000); ("B8A", Z2F 3100)].

(** Band lists that agree on names and carry equal numbers. *)
Definition bands_equiv (a b : bands) : Prop :=
  Forall2 (fun x y => fst x = fst y /\ (snd x == snd y)%Q) a b.

(** ** The chain of methods applied to the data

    The receiver chain of an expression: the methods applied one after
    the other to the collection, outermost last. *)

Inductive method : Type :=
| m_filterDate | m_filterBounds | m_sort | m_first | m_constant | m_clip | m_select
| m_multiply | m_add | m_subtract | m_divide | m_addBands | m_rename
| m_reduceRegion | m_image_props.

Fixpoint chain_collection (c : ee.ImageCollection_) : list method :=
  match c with
  | ee.ImageCollection _ => []
  | ee.filterDate _ _ c' => chain_collection c' ++ [m_filterDate]
  | ee.filterBounds _ c' => chain_collection c' ++ [m_filterBounds]
  | ee.sort _ c' => chain_collection c' ++ [m_sort]
  end.

Fixpoint chain_image (i : ee.Image) : list method :=
  match i with
  | ee.first c => chain_collection c ++ [m_first]
  | ee.constant _ => [m_constant]
  | ee.clip _ i' => chain_image i' ++ [m_clip]
  | ee.select _ i' => chain_image i' ++ [m_select]
  | ee.multiply _ i' => chain_image i' ++ [m_multiply]
  | ee.add _ i' => chain_image i' ++ [m_add]
  | ee.subtract _ i' => chain_image i' ++ [m_subtract]
  | ee.divide _ i' => chain_image i' ++ [m_divide]
  | ee.addBands _ _ _ i' => chain_image i' ++ [m_addBands]
  | ee.rename _ i' => chain_image i' ++ [m_rename]
  end.

Definition chain (d : ee.Dictionary) : list method :=
  match d with
  | ee.reduceRegion _ _ _ _ i => chain_image i ++ [m_reduceRegion]
  | ee.image_props i => chain_image i ++ [m_image_props]
  end.

(** A catalogue and a clip region to run the definitions on. *)
Definition sample_scene : ee.ImageCollection_ -> pixel -> option bands :=
  fun _ _ => Some [("B4", 1000); ("B8", 3000); ("B8A", 3100);
                   ("SR_B4", 9000); ("SR_B5", 20000); ("ST_B10", 40000)]%Q.
Definition sample_inside : ee.Geometry -> pixel -> bool := fun _ _ => true.

(** The normalised difference taken on an image whose bands were not
    divided by 10000: what [sentinel_ndvi] and [ndvi] are compared with. *)
Definition ndvi_unscaled (img : ee.Image) : ee.Image :=
  img |> ee.select "B8" |> ee.subtract (img |> ee.select "B4")
      |> ee.divide (img |> ee.select "B8" |> ee.add (img |> ee.select "B4")).

(** ** What a run of the notebook is checked against *)

(** The visualisation parameters handed to the rendering calls of a run,
    in order. *)
Definition rendered (h : list exchange) : list VisParams :=
  flat_map (fun ex => match renders (fst ex) with
                      | Some v => [v]
                      | None => []
                      end) h.

(** The dict literals, in the order in which the cells use them: cell 13
    (twice), cell 18, cell 26 (twice), cell 30 (twice), then once per year. *)
Definition declared_vis : list VisParams :=
  map vis_properties
      [landsat_IR; landsat_nat; vis_ndvi; sentinel_nat; sentinel_IR; vis_ndvi; vis_ndvi]
  ++ map (fun _ => vis_properties vis_ndvi) years.

Fixpoint last_exchange (h : list exchange) : option exchange :=
  match h with
  | [] => None
  | [ex] => Some ex
  | _ :: h' => last_exchange h'
  end.

(** The properties whose value the notebook passes to [round]. *)
Definition rounded_property (k : string) : bool :=
  String.eqb k "B8" || String.eqb k "CLOUDY_PIXEL_PERCENTAGE"
  || String.eqb k "CLOUD_COVERAGE_ASSESSMENT".

(** Where an exception that ends a run comes from: a request that was
    refused, or [round] applied to an answer that is not a number. *)
Definition failure_origin (h : list exchange) (x : exn) : Prop :=
  (exists r, last_exchange h = Some (r, inl x)) \/
  (x = TypeError /\
   exists k d v, In (getInfo (ee.get k d), inr v) h /\
                 rounded_property k = true /\ is_number v = false).

(** *** The calls of the notebook, in the order of the cells

    A request without what depends on earlier answers (the layer names of
    the loop, the labels of the split map). *)
Definition skeleton (r : request) : request :=
  match r with
  | add_ee_layer m obj p _ => add_ee_layer m obj p []
  | split_map m l r _ _ => split_map m l r [] []
  | _ => r
  end.

Definition vis_ndvi_value (k : string) : vis_value :=
  match lookup k (vis_properties vis_ndvi) with
  | Some v => v
  | None => VStrs []
  end.

Definition calls_of_year (year : Z) : list request :=
  [getInfo (mean_ndvi year |> ee.get "B8");
   image_props_of (image year);
   getInfo (image_info year |> ee.get "IMAGE_DATE");
   add_ee_layer "ndvi_map" (ndvi year) (vis_properties vis_ndvi) [];
   getInfo (image_info year |> ee.get "CLOUD_COVERAGE_ASSESSMENT")].

Definition call_plan : list request :=
  [ (* cell 2 *)
    geemap_Map (47.02882844813948, 4.948176654205355)%Q 11 true (Some false) false;
    (* cell 6 *)
    image_props_of image_2022;
    getInfo (props |> ee.get "IMAGE_DATE");
    getInfo (props |> ee.get "CLOUD_COVER_LAND");
    (* cell 13 *)
    add_ee_layer "burgundy_map" landsat_8_data_2022 (vis_properties landsat_IR) [];
    add_ee_layer "burgundy_map" landsat_8_data_2022 (vis_properties landsat_nat) [];
    (* cell 18 *)
    add_ee_layer "burgundy_map" landsat_ndvi (vis_properties vis_ndvi) [];
    add_colorbar_branca "burgundy_map" (vis_ndvi_value "palette") (vis_ndvi_value "min")
                        (vis_ndvi_value "max") (Some "Landsat NDVI") None;
    (* cell 23 *)
    image_props_of sentinel_2022;
    getInfo (props2 |> ee.get "IMAGE_DATE");
    getInfo (props2 |> ee.get "CLOUDY_PIXEL_PERCENTAGE");
    (* cell 26 *)
    geemap_Map (47.02882844813948, 4.948176654205355)%Q 11 true (Some false) false;
    add_ee_layer "sentinel_map" sentinel_2022_data (vis_properties sentinel_nat) [];
    add_ee_layer "sentinel_map" sentinel_2022_data (vis_properties sentinel_IR) [];
    (* cell 30 *)
    ee_tile_layer landsat_ndvi (vis_properties vis_ndvi) [Text "Landsat NDVI"];
    ee_tile_layer sentinel_ndvi (vis_properties vis_ndvi) [Text "Sentinel NDVI"];
    geemap_Map (47.02882844813948, 4.948176654205355)%Q 11 true (Some false) false;
    split_map "split"
              {| ee_object := landsat_ndvi; vis_params := vis_properties vis_ndvi;
                 layer_name := [Text "Landsat NDVI"] |}
              {| ee_object := sentinel_ndvi; vis_params := vis_properties vis_ndvi;
                 layer_name := [Text "Sentinel NDVI"] |} [] [];
    add_colorbar_branca "split" (vis_ndvi_value "palette") (vis_ndvi_value "min")
                        (vis_ndvi_value "max") None None;
    (* cell 37 *)
    geemap_Map (47.02882844813948, 4.948176654205355)%Q 11 true None false ]
  ++ flat_map calls_of_year years
  ++ [ (* cell 39 *)
       add_colorbar_branca "ndvi_map" (vis_ndvi_value "palette") (vis_ndvi_value "min")
                           (vis_ndvi_value "max") None (Some "bottomright") ].

(** A 'Mean NDVI' cell is the one the table was built with or the answer
    to the mean request of its year, and likewise a 'Photo Date' cell and
    the date request. *)
Definition cells_from_answers (h : list exchange) (s : Notebook) : Prop :=
  match wine_scores s with
  | None => True
  | Some df =>
      Forall2 (fun year r =>
                 (nth 2 r PNone = PNone \/
                  In (getInfo (mean_ndvi year |> ee.get "B8"), inr (nth 2 r PNone)) h) /\
                 (nth 3 r PNone = PStr "" \/
                  In (getInfo (image_info year |> ee.get "IMAGE_DATE"), inr (nth 3 r PNone)) h))
              years (rows df)
  end.

(** A rendering request for a layer called "Landsat NDVI" shows
    [landsat_ndvi]. *)
Definition shows_landsat_ndvi (r : request) : Prop :=
  match r with
  | add_ee_layer _ obj _ n | ee_tile_layer obj _ n =>
      n = [Text "Landsat NDVI"] -> obj = landsat_ndvi
  | _ => True
  end.

(** The shape of the wine-scores table and the two columns entered by hand. *)
Definition table_shape (t : option DataFrame) : Prop :=
  match t with
  | None => True
  | Some df =>
      columns df = wine_scores_columns /\
      List.length (rows df) = 6%nat /\
      forallb (fun r => Nat.eqb (List.length r) 4) (rows df) = true /\
      df_getitem "Year" df
      = Some [PInt 2017; PInt 2018; PInt 2019; PInt 2020; PInt 2021; PInt 2022] /\
      df_getitem "Wine Score" df
      = Some [PFloat 93; PFloat 92; PFloat 95; PFloat 94; PNaN; PNaN]
  end.

Definition notebook_post (h : list exchange) (s : Notebook) (o : exn + unit) : Prop :=
  forallb (fun ex => negb (persists (fst ex))) h = true /\
  (exists rest, rendered h ++ rest = declared_vis /\ (o = inr tt -> rest = [])) /\
  Forall (fun ex => shows_landsat_ndvi (fst ex)) h /\
  table_shape (wine_scores s) /\
  match o with
  | inl x => failure_origin h x
  | inr _ => wine_scores s <> None
  end.

(** What one iteration for [year] may change in the wine-scores table:
    nothing in the first two cells of a row, and nothing at all in a row
    of another year. *)
Definition row_frame (year : Z) (r r' : list pyval) : Prop :=
  nth 0 r' PNone = nth 0 r PNone /\
  nth 1 r' PNone = nth 1 r PNone /\
  (py_eq (nth 0 r PNone) (PInt year) = false -> r' = r).

Definition frame (year : Z) (df df' : DataFrame) : Prop :=
  columns df' = columns df /\ Forall2 (row_frame year) (rows df) (rows df').

(** An engine that answers every request: a date for the date property,
    a different mean for every year, a cloud percentage otherwise. *)
Definition sample_engine : Engine :=
  fun h r =>
    match r with
    | getInfo (ee.get k _) =>
        if String.eqb k "IMAGE_DATE" then inr (PStr "2022-08-10")
        else if String.eqb k "B8" then inr (PFloat (inject_Z (Z.of_nat (List.length h)) / 100))
        else inr (PFloat 1.2345)
    | _ => inr PNone
    end.

(** The same answers, from an engine that would refuse to write a file. *)
Definition sample_engine_readonly : Engine :=
  fun h r =>
    match r with
    | to_csv _ _ => inl (EEException "read-only file system")
    | _ => sample_engine h r
    end.

(** An engine whose collection has no image for August 2019. *)
Definition no_image_2019 : Engine :=
  fun h r =>
    match r with
    | getInfo (ee.get k (ee.reduceRegion _ _ _ _ (ee.divide _ (ee.subtract _ (ee.select _ (ee.divide _
        (ee.clip _ (ee.first (ee.sort _ (ee.filterBounds _ (ee.filterDate start _ _))))))))))) =>
        if String.eqb start "2019-08-01"
        then inl (EEException "Image.clip: Parameter 'input' is required.")
        else sample_engine h r
    | _ => sample_engine h r
    end.

(** A program keeps an invariant of the local objects when every state it
    stores satisfies it, given that the states it reads do. *)
Fixpoint preserves {A : Type} (I : Notebook -> Prop) (m : Py A) : Prop :=
  match m with
  | Ret _ => True
  | Raise _ => True
  | Ask _ k => forall v, preserves I (k v)
  | GetState k => forall s, I s -> preserves I (k s)
  | SetState s' k => I s' /\ preserves I k
  end.

Definition within_frame (year : Z) (df : DataFrame) (s : Notebook) : Prop :=
  exists df', wine_scores s = Some df' /\ frame year df df'.

(** A state in which the loop can run: what cells 11, 36 and the head of
    cell 37 leave behind. *)
Definition before_loop : Notebook :=
  {| dicts := [("vis_ndvi", vis_ndvi)];
     maps := [("ndvi_map", [])];
     wine_scores := Some (pandas_DataFrame scores wine_scores_columns);
     images := Some [];
     outputs := [] |}.

(** The NDVI expression of cell 16 taken on the rescaled image instead. *)
Definition landsat_ndvi_rescaled : ee.Image :=
  landsat_8_data_2022 |> ee.select "SR_B5"
    |> ee.subtract (landsat_8_data_2022 |> ee.select "SR_B4")
    |> ee.divide (landsat_8_data_2022 |> ee.select "SR_B5"
                    |> ee.add (landsat_8_data_2022 |> ee.select "SR_B4"))
    |> ee.rename "Landsat NDVI".

(** ** Further notions used to describe the code *)

(** The table after the two [.loc] assignments of the iteration for
    [year], with mean [v] and photo date [d]. *)
Definition filled (year : Z) (v d : pyval) (df : DataFrame) : DataFrame :=
  {| columns := columns df;
     rows := map (fun r => if py_eq (nth 0 r PNone) (PInt year)
                           then set_nth 3 d (set_nth 2 v r) else r) (rows df) |}.

(** An engine whose region reduction has no value to give. *)
Definition null_mean_engine : Engine :=
  fun h r =>
    match r with
    | getInfo (ee.get k _) =>
        if String.eqb k "B8" then inr PNone else sample_engine h r
    | _ => sample_engine h r
    end.

(** A band selector made of literal characters only. *)
Definition plain (c : ascii) : bool := negb (Ascii.eqb c ".") && negb (Ascii.eqb c "*").

Fixpoint all_plain (p : string) : bool :=
  match p with
  | EmptyString => true
  | String c p' => plain c && all_plain p'
  end.

(** The bands whose name satisfies [P], with [g] applied to their values. *)
Definition rescale (P : string -> bool) (g : Q -> Q) (bs : bands) : bands :=
  map (fun b => (fst b, g (snd b))) (filter (fun b => P (fst b)) bs).

(** What [applyScaleFactors] does to one band. *)
Definition scaled_band (b : string * Q) : string * Q :=
  if matches "ST_B.*" (fst b) then (fst b, (snd b * 0.00341802 + 149.0)%Q)
  else if matches "SR_B." (fst b) then (fst b, (snd b * 0.0000275 + -0.2)%Q)
  else b.

(** Bands of a Landsat scene and of a Sentinel scene, to run the
    definitions on. *)
Definition landsat_bands : bands :=
  [("SR_B1", 8000); ("SR_B2", 8500); ("SR_B3", 9500); ("SR_B4", 9000);
   ("SR_B5", 20000); ("SR_B6", 15000); ("SR_B7", 11000); ("SR_QA_AEROSOL", 96);
   ("ST_B10", 44000); ("ST_QA", 300); ("QA_PIXEL", 21824)]%Q.

Definition sentinel_bands : bands :=
  [("B1", 300); ("B2", 400); ("B3", 700); ("B4", 1000); ("B5", 1500); ("B8", 3000);
   ("B8A", 3100); ("B11", 2000); ("B12", 1200); ("SCL", 4)]%Q.

(** A colour bar is drawn with the palette and the range of [vis_ndvi]. *)
Definition colorbar_of_vis_ndvi (r : request) : Prop :=
  match r with
  | add_colorbar_branca _ colors vmin vmax _ _ =>
      lookup "palette" (vis_properties vis_ndvi) = Some colors /\
      lookup "min" (vis_properties vis_ndvi) = Some vmin /\
      lookup "max" (vis_properties vis_ndvi) = Some vmax
  | _ => True
  end.

Definition is_getInfo (r : request) : bool :=
  match r with
  | getInfo _ => true
  | _ => false
  end.

Definition is_image_props (r : request) : bool :=
  match r with
  | image_props_of _ => true
  | _ => false
  end.

(** The local objects at the end of a run that completes. *)
Definition complete_state (s : Notebook) : Prop :=
  exists df d l,
    wine_scores s = Some df /\
    images s = Some d /\
    map fst d = map str years /\
    map (fun kv => snd (snd kv)) d = map ndvi years /\
    df_getitem "Mean NDVI" df = Some (map (fun kv => fst (snd kv)) d) /\
    map (fun m => (fst m, map ee_object (snd m))) (maps s)
    = [("burgundy_map", [landsat_8_data_2022; landsat_8_data_2022; landsat_ndvi]);
       ("sentinel_map", [sentinel_2022_data; sentinel_2022_data]);
       ("split", [landsat_ndvi; sentinel_ndvi]);
       ("ndvi_map", map ndvi years)] /\
    lookup "ndvi_map" (maps s) = Some l /\
    df_getitem "Photo Date" df
    = Some (map (fun x => match layer_name x with
                          | Fmt date :: _ => date
                          | _ => PNone
                          end) l) /\
    Forall2 (fun mean x => exists r, round_value mean = Some r /\
                                     nth 2 (layer_name x) (Text "") = Fmt r)
            (map (fun kv => fst (snd kv)) d) l.

(** How far the loop got: the entries of [images] are those of the first
    years, in order, with the means the table holds for them. *)
Definition loop_progress (s : Notebook) : Prop :=
  match images s, wine_scores s with
  | Some d, Some df =>
      (exists rest, map fst d ++ rest = map str years) /\
      (exists rest, Some (map (fun kv => fst (snd kv)) d ++ rest) = df_getitem "Mean NDVI" df)
  | Some _, None => False
  | None, _ => True
  end.

Definition run_post (h : list exchange) (s : Notebook) (o : exn + unit) : Prop :=
  Forall (fun ex => colorbar_of_vis_ndvi (fst ex)) h /\
  (List.length h <= 51)%nat /\
  loop_progress s /\
  (exists rest, map (fun ex => skeleton (fst ex)) h ++ rest = call_plan) /\
  cells_from_answers h s /\
  match o with
  | inl _ => True
  | inr _ =>
      List.length h = 51%nat /\
      List.length (filter (fun ex => is_getInfo (fst ex)) h) = 22%nat /\
      List.length (filter (fun ex => is_image_props (fst ex)) h) = 8%nat /\
      complete_state s
  end.


(** ** Reasoning about programs *)

Section ProgramLogic.

Context {A : Type}.

Lemma wp_sound (m : Py A) :
  forall h s Q (e : Engine),
    wp m h s Q ->
    Q (h ++ trace (run e h m s)) (final (run e h m s)) (outcome (run e h m s)).
Proof.
  induction m as [a | x | r k IH | k IH | s' k IH]; intros h s Q e Hwp; simpl in *.
  - now rewrite app_nil_r.
  - now rewrite app_nil_r.
  - destruct Hwp as [Herr Hok]. destruct (e h r) as [x | v]; simpl.
    + apply Herr.
    + specialize (IH v _ s Q e (Hok v)).
      now rewrite <- app_assoc in IH.
  - now apply IH.
  - now apply IH.
Qed.

Lemma wp_mono (m : Py A) :
  forall h s (Q Q' : list exchange -> Notebook -> exn + A -> Prop),
    (forall h' s' o, Q h' s' o -> Q' h' s' o) ->
    wp m h s Q -> wp m h s Q'.
Proof.
  induction m as [a | x | r k IH | k IH | s' k IH]; intros h s Q Q' HQ Hwp; simpl in *; auto.
  - destruct Hwp as [Herr Hok]. split; eauto.
  - eauto.
  - eauto.
Qed.

(** A request that the outside world refuses ends the run: it is the
    last exchange, everything before it succeeded, and its exception is
    the outcome. *)
Lemma refused_is_last (m : Py A) :
  forall (e : Engine) h s r x,
    In (r, inl x) (trace (run e h m s)) ->
    outcome (run e h m s) = inl x /\
    exists before,
      trace (run e h m s) = before ++ [(r, inl x)] /\
      Forall (fun ex => exists v, snd ex = inr v) before.
Proof.
  induction m as [a | y | r' k IH | k IH | s' k IH]; intros e h s r x Hin; simpl in *.
  - contradiction.
  - contradiction.
  - destruct (e h r') as [y | v]; simpl in *.
    + destruct Hin as [Heq | []]. inversion Heq; subst.
      split; [reflexivity |]. exists []. split; [reflexivity | constructor].
    + destruct Hin as [Heq | Hin]; [discriminate |].
      destruct (IH v e _ s r x Hin) as [Hout [before [Htr Hall]]].
      split; [exact Hout |].
      exists ((r', inr v) :: before). rewrite Htr. split; [reflexivity |].
      constructor; [now exists v | exact Hall].
  - eauto.
  - eauto.
Qed.

(** Two runs that receive the same answers are the same run. *)
Lemma same_answers_same_run (m : Py A) :
  forall (e1 e2 : Engine) h1 h2 s,
    map snd (trace (run e1 h1 m s)) = map snd (trace (run e2 h2 m s)) ->
    final (run e1 h1 m s) = final (run e2 h2 m s) /\
    trace (run e1 h1 m s) = trace (run e2 h2 m s) /\
    outcome (run e1 h1 m s) = outcome (run e2 h2 m s).
Proof.
  induction m as [a | y | r k IH | k IH | s' k IH]; intros e1 e2 h1 h2 s Heq; simpl in *; auto.
  destruct (e1 h1 r) as [x1 | v1], (e2 h2 r) as [x2 | v2]; simpl in *.
  - inversion Heq; subst. auto.
  - inversion Heq.
  - inversion Heq.
  - inversion Heq as [[Hv Htl]]. subst v2.
    destruct (IH v1 e1 e2 _ _ s Htl) as [Hf [Ht Ho]].
    rewrite Hf, Ht, Ho. auto.
Qed.

End ProgramLogic.

Lemma wp_bind {A B : Type} (m : Py A) (f : A -> Py B) :
  forall h s (Q : list exchange -> Notebook -> exn + B -> Prop),
    wp m h s (fun h' s' o =>
                match o with
                | inl x => Q h' s' (inl x)
                | inr a => wp (f a) h' s' Q
                end) ->
    wp (bind m f) h s Q.
Proof.
  induction m as [a | x | r k IH | k IH | s' k IH]; intros h s Q Hwp; simpl in *; auto.
  destruct Hwp as [Herr Hok]. split; auto.
Qed.

Lemma wp_ask {A : Type} (r : request) (k : pyval -> Py A) h s
      (Q : list exchange -> Notebook -> exn + A -> Prop) :
  (forall x, Q (h ++ [(r, inl x)]) s (inl x)) ->
  (forall v, wp (k v) (h ++ [(r, inr v)]) s Q) ->
  wp (Ask r k) h s Q.
Proof. intros Herr Hok. split; assumption. Qed.

Lemma wp_get {A : Type} (k : Notebook -> Py A) h s
      (Q : list exchange -> Notebook -> exn + A -> Prop) :
  wp (k s) h s Q -> wp (GetState k) h s Q.
Proof. intros H. exact H. Qed.

Lemma wp_set {A : Type} (s' : Notebook) (k : Py A) h s
      (Q : list exchange -> Notebook -> exn + A -> Prop) :
  wp k h s' Q -> wp (SetState s' k) h s Q.
Proof. intros H. exact H. Qed.

Lemma round_value_number (v r : pyval) :
  round_value v = Some r -> is_number v = true /\ is_number r = true.
Proof. destruct v; simpl; intros H; inversion H; auto. Qed.

Lemma round_value_none (v : pyval) :
  round_value v = None -> is_number v = false.
Proof. destruct v; simpl; intros H; inversion H; auto. Qed.

Arguments round_value : simpl never.


(** ** Band arithmetic *)

Section RasterFacts.

Variable scene : ee.ImageCollection_ -> pixel -> option bands.
Variable inside : ee.Geometry -> pixel -> bool.

Local Abbreviation ev := (eval scene inside).

(** The expression [nir.subtract(red).divide(nir.add(red))] on two
    single-band images. *)
Lemma normalized_difference (nir red : ee.Image) (p : pixel) (bn br : string) (n r : Q) :
  ev p nir = Some [(bn, n)] ->
  ev p red = Some [(br, r)] ->
  ev p (nir |> ee.subtract red |> ee.divide (nir |> ee.add red))
  = Some [(bn, ((n - r) / (n + r))%Q)].
Proof.
  intros Hn Hr. simpl. rewrite Hn, Hr. reflexivity.
Qed.

Lemma renamed_difference (nir red : ee.Image) (name : string) (p : pixel)
      (bn br : string) (n r : Q) :
  ev p nir = Some [(bn, n)] ->
  ev p red = Some [(br, r)] ->
  ev p (nir |> ee.subtract red |> ee.divide (nir |> ee.add red) |> ee.rename name)
  = Some [(name, ((n - r) / (n + r))%Q)].
Proof.
  intros Hn Hr.
  change (ev p (nir |> ee.subtract red |> ee.divide (nir |> ee.add red) |> ee.rename name))
    with (match ev p (nir |> ee.subtract red |> ee.divide (nir |> ee.add red)) with
          | Some [(_, v)] => Some [(name, v)]
          | _ => None
          end).
  now rewrite (normalized_difference nir red p bn br n r Hn Hr).
Qed.

(** Dividing an image by a number divides every band and keeps the names. *)
Lemma divide_by_number (img : ee.Image) (k : Q) (p : pixel) (bs : bands) :
  ev p img = Some bs ->
  ev p (img |> ee.divide k) = Some (map (fun b => (fst b, (snd b / k)%Q)) bs).
Proof.
  intros H. simpl. rewrite H. simpl. unfold band_arith.
  destruct bs as [| b1 [| b2 bs']]; reflexivity.
Qed.

Lemma select_divided (img : ee.Image) (k : Q) (pat : string) (p : pixel)
      (name : string) (x : Q) :
  ev p (img |> ee.select pat) = Some [(name, x)] ->
  ev p (img |> ee.divide k |> ee.select pat) = Some [(name, (x / k)%Q)].
Proof.
  intros H.
  change (eval scene inside p (ee.select pat (ee.divide k img)))
    with (option_map (filter (fun b => matches pat (fst b)))
                     (eval scene inside p (ee.divide k img))).
  simpl in H.
  destruct (eval scene inside p img) as [bs |] eqn:E; [| discriminate].
  rewrite (divide_by_number img k p bs E). simpl. simpl in H.
  inversion H as [H1]. clear H. f_equal.
  assert (Hgen : forall l out,
             filter (fun b => matches pat (fst b)) l = out ->
             filter (fun b => matches pat (fst b)) (map (fun b => (fst b, (snd b / k)%Q)) l)
             = map (fun b => (fst b, (snd b / k)%Q)) out).
  { induction l as [| a l IH]; intros out Hout; simpl in *.
    - subst. reflexivity.
    - destruct (matches pat (fst a)); subst; simpl; f_equal; auto. }
  rewrite (Hgen bs [(name, x)] H1). reflexivity.
Qed.

(** Scaling both bands by the same non-zero number leaves the
    normalised difference unchanged. *)
Lemma scaled_difference (n r k : Q) :
  ~ (k == 0)%Q -> ~ (n + r == 0)%Q ->
  ((n / k - r / k) / (n / k + r / k) == (n - r) / (n + r))%Q.
Proof.
  intros Hk Hs. field. split; assumption.
Qed.

End RasterFacts.

(** C1. Every NDVI the notebook computes (the Landsat layer, the Sentinel
    layer, the per-year one) is subtract(NIR, Red) divided by add(NIR, Red)
    on the selected bands: as an expression for every input image, and as
    the number (NIR - Red) / (NIR + Red) at every pixel where the two
    selections are single bands. *)
Theorem ndvi_is_normalized_difference :
  forall (scene : ee.ImageCollection_ -> pixel -> option bands)
         (inside : ee.Geometry -> pixel -> bool) (p : pixel),
    let ev := eval scene inside p in
    (ev landsat_ndvi
     = ev (landsat_NIR |> ee.subtract landsat_red
                       |> ee.divide (landsat_NIR |> ee.add landsat_red)
                       |> ee.rename "Landsat NDVI") /\
     forall n r, ev landsat_NIR = Some [("SR_B5", n)] ->
                 ev landsat_red = Some [("SR_B4", r)] ->
                 ev landsat_ndvi = Some [("Landsat NDVI", ((n - r) / (n + r))%Q)]) /\
    (ev sentinel_ndvi
     = ev (sentinel_NIR |> ee.subtract sentinel_red
                        |> ee.divide (sentinel_NIR |> ee.add sentinel_red)
                        |> ee.rename "Sentinel NDVI") /\
     forall n r, ev sentinel_NIR = Some [("B8", n)] ->
                 ev sentinel_red = Some [("B4", r)] ->
                 ev sentinel_ndvi = Some [("Sentinel NDVI", ((n - r) / (n + r))%Q)]) /\
    (forall year,
        ev (ndvi year)
        = lift2 Qdiv (lift2 Qminus (ev (NIR year)) (ev (red year)))
                     (lift2 Qplus (ev (NIR year)) (ev (red year))) /\
        forall n r, ev (NIR year) = Some [("B8", n)] ->
                    ev (red year) = Some [("B4", r)] ->
                    ev (ndvi year) = Some [("B8", ((n - r) / (n + r))%Q)]).
Proof.
  intros scene inside p ev. subst ev. repeat split.
  - intros n r Hn Hr.
    exact (renamed_difference scene inside _ _ _ p _ _ n r Hn Hr).
  - intros n r Hn Hr.
    exact (renamed_difference scene inside _ _ _ p _ _ n r Hn Hr).
  - intros n r Hn Hr.
    exact (normalized_difference scene inside _ _ p _ _ n r Hn Hr).
Qed.

Lemma ndvi_is_normalized_difference_witness :
  eval sample_scene sample_inside (0, 0) landsat_ndvi
  = Some [("Landsat NDVI", ((20000 - 9000) / (20000 + 9000))%Q)] /\
  eval sample_scene sample_inside (0, 0) sentinel_ndvi
  = Some [("Sentinel NDVI",
           ((3000 / 10000 - 1000 / 10000) / (3000 / 10000 + 1000 / 10000))%Q)] /\
  eval sample_scene sample_inside (0, 0) (ndvi 2017)
  = Some [("B8", ((3000 / 10000 - 1000 / 10000) / (3000 / 10000 + 1000 / 10000))%Q)].
Proof.
  destruct (ndvi_is_normalized_difference sample_scene sample_inside (0, 0))
    as [[_ HL] [[_ HS] HY]].
  split; [| split].
  - apply HL; reflexivity.
  - apply HS; reflexivity.
  - apply (HY 2017); reflexivity.
Defined.




(** ** The per-year pipeline *)

(** The pipeline of one year, written out: only the two date strings are
    computed locally. *)
Lemma mean_ndvi_unfolded (year : Z) :
  let data :=
    ee.ImageCollection "COPERNICUS/S2_SR_HARMONIZED"
      |> ee.filterDate (str year ++ "-08-01")%string (str year ++ "-08-31")%string
      |> ee.filterBounds study_area
      |> ee.sort "HIGH_PROBA_CLOUDS_PERCENTAGE"
      |> ee.first
      |> ee.clip clip_area
      |> ee.divide 10000%Q in
  mean_ndvi year
  = (data |> ee.select "B8" |> ee.subtract (data |> ee.select "B4")
          |> ee.divide (data |> ee.select "B8" |> ee.add (data |> ee.select "B4"))
          |> ee.reduceRegion ee.Reducer_mean clip_area 10%Q 1e9%Q).
Proof. reflexivity. Qed.

(** C2, as stated, fails: the chain from the collection to the mean is not
    eight single calls, whatever single call stands for the NDVI step. *)
Lemma pipeline_is_not_eight_calls :
  ~ (forall year, exists ndvi_call,
        chain (mean_ndvi year)
        = [m_filterDate; m_filterBounds; m_sort; m_first; m_clip; m_divide;
           ndvi_call; m_reduceRegion]).
Proof.
  intros H. destruct (H 2017) as [c Hc]. discriminate Hc.
Qed.

(** C2 (amended). For every year the mean NDVI is obtained by filterDate,
    filterBounds, sort (by cloud percentage), first, clip, divide (the
    scaling), then the NDVI band math (select, subtract, divide on the
    receiver chain, with select and add building the divisor), then
    reduceRegion over the clip polygon with the mean reducer; the
    expression is the nest of these calls and nothing else. *)
Theorem pipeline_operations_in_order :
  forall year : Z,
    chain (mean_ndvi year)
    = [m_filterDate; m_filterBounds; m_sort; m_first; m_clip; m_divide;
       m_select; m_subtract; m_divide; m_reduceRegion] /\
    (exists divisor,
        ndvi year = (NIR year |> ee.subtract (red year) |> ee.divide divisor) /\
        divisor = (image_data year |> ee.select "B8"
                                   |> ee.add (image_data year |> ee.select "B4"))) /\
    image_data year
    = (ee.ImageCollection "COPERNICUS/S2_SR_HARMONIZED"
         |> ee.filterDate (str year ++ "-08-01")%string (str year ++ "-08-31")%string
         |> ee.filterBounds study_area
         |> ee.sort "HIGH_PROBA_CLOUDS_PERCENTAGE"
         |> ee.first
         |> ee.clip clip_area
         |> ee.divide 10000%Q) /\
    mean_ndvi year = (ndvi year |> ee.reduceRegion ee.Reducer_mean clip_area 10%Q 1e9%Q).
Proof.
  intros year. repeat split.
  eexists. split; reflexivity.
Qed.

(** ** Running the notebook symbolically *)

Arguments notebook_post : simpl never.

Ltac py_norm :=
  lazymatch goal with
  | |- wp ?m ?h ?s ?Q =>
      let s' := eval cbn in s in
      let h' := eval cbn in h in
      let m' := eval cbn in m in
      change (wp m' h' s' Q)
  end.

Ltac py_exec fin :=
  py_norm;
  lazymatch goal with
  | |- wp (Ret _) _ _ _ => fin
  | |- wp (Raise _) _ _ _ => fin
  | |- wp (Ask _ _) _ _ _ => apply wp_ask; [ intros ?; fin | intros ?; py_exec fin ]
  | |- wp (GetState _) _ _ _ => apply wp_get; py_exec fin
  | |- wp (SetState _ _) _ _ _ => apply wp_set; py_exec fin
  | |- context [round_value ?v] =>
      let E := fresh "E" in destruct (round_value v) eqn:E; py_exec fin
  | |- context [round_ ?v] =>
      let E := fresh "E" in unfold round_; destruct (round_value v) eqn:E; py_exec fin
  | |- wp ?m ?h ?s ?Q =>
      let m' := eval hnf in m in progress change (wp m' h s Q); py_exec fin
  end.

Ltac solve_origin :=
  lazymatch goal with
  | |- failure_origin _ TypeError =>
      right; split; [reflexivity |];
      lazymatch goal with
      | E : round_value ?v = None |- _ =>
          lazymatch goal with
          | |- context [(getInfo (ee.get ?k ?d), inr v)] =>
              exists k, d, v;
              split; [cbn; tauto | split; [reflexivity | exact (round_value_none v E)]]
          end
      end
  | |- failure_origin _ _ => left; eexists; reflexivity
  | |- _ <> None => discriminate
  end.

Ltac solve_shows :=
  repeat (apply Forall_cons;
          [ cbn; first [ exact I
                       | let H := fresh in intros H; first [reflexivity | discriminate H] ]
          | ]);
  apply Forall_nil.

Ltac solve_post :=
  unfold wp, notebook_post;
  split; [ reflexivity
  | split; [ eexists; split;
             [ reflexivity
             | let H := fresh in intros H; first [discriminate H | reflexivity] ]
  | split; [ solve_shows
  | split; [ cbn; first [exact I | repeat split]
           | solve_origin ]]]].

(** Whatever cell 9 does to the Landsat image and whatever the outside
    world answers, a run of the notebook ends in [notebook_post]. *)
Lemma notebook_wp (scale : ee.Image -> ee.Image) :
  wp (notebook_with scale) [] fresh_kernel notebook_post.
Proof.
  unfold notebook_with.
  py_exec solve_post.
Qed.

Lemma notebook_run (scale : ee.Image -> ee.Image) (e : Engine) :
  let res := run e [] (notebook_with scale) fresh_kernel in
  notebook_post (trace res) (final res) (outcome res).
Proof.
  exact (wp_sound (notebook_with scale) [] fresh_kernel notebook_post e (notebook_wp scale)).
Qed.

Lemma last_exchange_In (h : list exchange) (ex : exchange) :
  last_exchange h = Some ex -> In ex h.
Proof.
  induction h as [| a [| b h'] IH]; simpl; intros H.
  - discriminate.
  - inversion H. now left.
  - right. apply IH. exact H.
Qed.

(** ** The wine-scores table *)

Lemma where_mask_map (f g : list pyval -> list pyval) (q : list pyval -> bool)
      (rs : list (list pyval)) :
  where_mask f g (map q rs) rs = map (fun r => if q r then f r else g r) rs.
Proof.
  induction rs as [| r rs IH]; simpl; [reflexivity |]. now rewrite IH.
Qed.

Lemma nth_set_nth_other (i j : nat) (v : pyval) (r : list pyval) :
  i <> j -> nth i (set_nth j v r) PNone = nth i r PNone.
Proof.
  revert i r. induction j as [| j IH]; intros i r Hij.
  - destruct r as [| x r]; [reflexivity |]. destruct i; [congruence | reflexivity].
  - destruct r as [| x r]; [reflexivity |]. destruct i; simpl; [reflexivity |].
    apply IH. congruence.
Qed.

Lemma row_frame_refl (year : Z) (r : list pyval) : row_frame year r r.
Proof. repeat split. Qed.

Lemma frame_refl (year : Z) (df : DataFrame) : frame year df df.
Proof.
  split; [reflexivity |]. induction (rows df); constructor; auto using row_frame_refl.
Qed.

Lemma frame_trans (year : Z) (a b c : DataFrame) :
  frame year a b -> frame year b c -> frame year a c.
Proof.
  intros [Hc1 Hr1] [Hc2 Hr2]. split; [congruence |].
  revert Hr2. generalize (rows c). induction Hr1 as [| r r' ra rb [H0 [H1 H2]] Hrest IH];
    intros rc Hr2; inversion Hr2 as [| r'' r3 rb' rc' [K0 [K1 K2]] Krest]; subst; constructor.
  - repeat split; try congruence.
    intros Hne. rewrite <- (H2 Hne). apply K2. now rewrite H0.
  - now apply IH.
Qed.

(** Assigning through [.loc] with the mask [df['Year'] == year] to a column
    other than the first two stays within the frame. *)
Lemma loc_setitem_frame (year : Z) (df : DataFrame) (c : string) (j : nat) (v : pyval)
      (series : list pyval) :
  column_index "Year" (columns df) = Some 0%nat ->
  column_index c (columns df) = Some j -> (2 <= j)%nat ->
  df_getitem "Year" df = Some series ->
  frame year df (loc_setitem (series_eq (PInt year) series) c v df).
Proof.
  intros Hy Hc Hj Hs. unfold df_getitem in Hs. rewrite Hy in Hs. inversion Hs; subst series.
  unfold loc_setitem, series_eq. rewrite Hc, map_map, where_mask_map.
  split; [reflexivity |]. cbn [rows].
  induction (rows df) as [| r rs IH]; cbn [map]; constructor; auto.
  destruct (py_eq (nth 0 r PNone) (PInt year)) eqn:E.
  - split; [| split].
    + apply nth_set_nth_other. lia.
    + apply nth_set_nth_other. lia.
    + intros H. congruence.
  - apply row_frame_refl.
Qed.

Lemma frame_facts (year : Z) (df df' : DataFrame) :
  columns df = wine_scores_columns ->
  frame year df df' ->
  columns df' = columns df /\
  List.length (rows df') = List.length (rows df) /\
  df_getitem "Year" df' = df_getitem "Year" df /\
  df_getitem "Wine Score" df' = df_getitem "Wine Score" df /\
  (forall i r, nth_error (rows df) i = Some r ->
               py_eq (nth 0 r PNone) (PInt year) = false ->
               nth_error (rows df') i = Some r).
Proof.
  intros Hcols [Hc Hr]. split; [exact Hc |].
  unfold df_getitem. rewrite Hc, Hcols. simpl.
  induction Hr as [| r r' rs rs' [H0 [H1 H2]] Hrest IH]; simpl.
  - repeat split. intros [| i] r H; discriminate H.
  - destruct IH as [IHl [IHy [IHw IHn]]]. repeat split.
    + now rewrite IHl.
    + inversion IHy. now rewrite H0.
    + inversion IHw. now rewrite H1.
    + intros [| i] r0 Hn Hne; simpl in *.
      * inversion Hn; subst. now rewrite (H2 Hne).
      * now apply IHn.
Qed.

Lemma preserves_bind {A B : Type} (I : Notebook -> Prop) (m : Py A) (f : A -> Py B) :
  preserves I m -> (forall a, preserves I (f a)) -> preserves I (bind m f).
Proof.
  induction m as [a | x | r k IH | k IH | s' k IH]; simpl; intros Hm Hf; auto.
  destruct Hm as [Hs Hk]. split; auto.
Qed.

Lemma preserves_run {A : Type} (I : Notebook -> Prop) (m : Py A) :
  forall (e : Engine) h s, I s -> preserves I m -> I (final (run e h m s)).
Proof.
  induction m as [a | x | r k IH | k IH | s' k IH]; simpl; intros e h s Hs Hm; auto.
  - destruct (e h r); simpl; auto.
  - destruct Hm as [Hs' Hk]. auto.
Qed.

Lemma preserves_for {X : Type} (I : Notebook -> Prop) (xs : list X) (body : X -> Py unit) :
  (forall x, In x xs -> preserves I (body x)) -> preserves I (for_ xs body).
Proof.
  induction xs as [| x xs IH]; simpl; intros H; [exact Logic.I |].
  apply preserves_bind; [now apply H; left |]. intros _. apply IH. intros y Hy. apply H. now right.
Qed.

Section LoopFrame.

Variable year : Z.
Variable df : DataFrame.
Hypothesis Hcols : columns df = wine_scores_columns.

Local Abbreviation Inv := (within_frame year df).

Lemma frame_with_maps f s : Inv s -> Inv (with_maps f s).
Proof. intros [d [H1 H2]]. exists d. split; assumption. Qed.

Lemma frame_with_output o s : Inv s -> Inv (with_output o s).
Proof. intros [d [H1 H2]]. exists d. split; assumption. Qed.

Lemma frame_with_images i s : Inv s -> Inv (with_images i s).
Proof. intros [d [H1 H2]]. exists d. split; assumption. Qed.

Lemma loc_set_preserves (c : string) (j : nat) (v : pyval) :
  column_index c wine_scores_columns = Some j -> (2 <= j)%nat ->
  preserves Inv (wine_scores_loc_set "Year" (PInt year) c v).
Proof.
  intros Hc Hj. unfold wine_scores_loc_set, var_wine_scores. simpl.
  intros s [d [Hd Hf]]. rewrite Hd. simpl.
  destruct (df_getitem "Year" d) as [series |] eqn:Hser; simpl; [| exact Logic.I].
  intros s' [d' [Hd' Hf']]. split; [| exact Logic.I].
  exists (loc_setitem (series_eq (PInt year) series) c v d). split; [reflexivity |].
  apply (frame_trans year df d); [exact Hf |].
  assert (Hcd : columns d = wine_scores_columns) by (destruct Hf as [Hf _]; congruence).
  apply (loc_setitem_frame year d c j v series); try assumption; rewrite Hcd; auto.
Qed.

Lemma loop_body_preserves : preserves Inv (loop_body year).
Proof.
  unfold loop_body.
  apply preserves_bind; [intros v; exact Logic.I | intros mean_final].
  apply preserves_bind; [intros v; exact Logic.I | intros image_info].
  apply preserves_bind; [intros v; exact Logic.I | intros date].
  apply preserves_bind; [apply (loc_set_preserves _ 2%nat); [reflexivity | lia] | intros _].
  apply preserves_bind; [apply (loc_set_preserves _ 3%nat); [reflexivity | lia] | intros _].
  apply preserves_bind.
  { unfold Map_add_ee_layer, var_map, dict_properties, var_dict, round_, call, modify.
    simpl. intros s Hs. destruct (lookup "ndvi_map" (maps s)); simpl; [| exact Logic.I].
    intros s1 Hs1. destruct (lookup "vis_ndvi" (dicts s1)); simpl; [| exact Logic.I].
    destruct (round_value mean_final); simpl; [| exact Logic.I].
    intros _ s2 Hs2. split; [now apply frame_with_maps | exact Logic.I]. }
  intros _.
  apply preserves_bind; [intros v; exact Logic.I | intros cloud].
  apply preserves_bind.
  { unfold round_. destruct (round_value cloud); exact Logic.I. }
  intros rounded.
  apply preserves_bind.
  { unfold print, modify. simpl. intros s Hs. split; [now apply frame_with_output | exact Logic.I]. }
  intros _. unfold images_setitem. simpl. intros s Hs.
  destruct (images s); simpl; [| exact Logic.I].
  split; [now apply frame_with_images | exact Logic.I].
Qed.

End LoopFrame.

(** C10. One iteration of the per-year loop, from any state in which the
    wine-scores table has its four columns and whatever the outside world
    answers, leaves the table with the same columns and number of rows,
    the same 'Year' and 'Wine Score' columns, and every row of another
    year exactly as it was. *)
Theorem loop_iteration_frame :
  forall (e : Engine) (h : list exchange) (s : Notebook) (year : Z) (df : DataFrame),
    wine_scores s = Some df ->
    columns df = wine_scores_columns ->
    exists df',
      wine_scores (final (run e h (loop_body year) s)) = Some df' /\
      columns df' = columns df /\
      List.length (rows df') = List.length (rows df) /\
      df_getitem "Year" df' = df_getitem "Year" df /\
      df_getitem "Wine Score" df' = df_getitem "Wine Score" df /\
      (forall i r, nth_error (rows df) i = Some r ->
                   py_eq (nth 0 r PNone) (PInt year) = false ->
                   nth_error (rows df') i = Some r).
Proof.
  intros e h s year df Hs Hcols.
  assert (Hinv : within_frame year df s) by (exists df; split; [exact Hs | apply frame_refl]).
  destruct (preserves_run _ _ e h s Hinv (loop_body_preserves year df Hcols)) as [df' [Hd Hf]].
  exists df'. split; [exact Hd |]. now apply frame_facts.
Qed.

Lemma loop_iteration_frame_witness :
  exists df',
    wine_scores (final (run sample_engine [] (loop_body 2018) before_loop)) = Some df' /\
    columns df' = wine_scores_columns /\
    List.length (rows df') = 6%nat /\
    df_getitem "Year" df' = df_getitem "Year" (pandas_DataFrame scores wine_scores_columns) /\
    df_getitem "Wine Score" df'
    = df_getitem "Wine Score" (pandas_DataFrame scores wine_scores_columns) /\
    (forall i r, nth_error (rows (pandas_DataFrame scores wine_scores_columns)) i = Some r ->
                 py_eq (nth 0 r PNone) (PInt 2018) = false ->
                 nth_error (rows df') i = Some r).
Proof.
  exact (loop_iteration_frame sample_engine [] before_loop 2018
           (pandas_DataFrame scores wine_scores_columns) eq_refl eq_refl).
Defined.

(** ** Properties of every run *)

(** C5. In every run the visualisation parameters handed to the rendering
    calls are, call after call, the [properties] of the dict literals as
    the cells declare them; a run that completes has handed over all of
    them. *)
Theorem vis_params_verbatim :
  forall e : Engine,
    exists rest,
      rendered (trace (execute e)) ++ rest = declared_vis /\
      (outcome (execute e) = inr tt -> rest = []).
Proof.
  intros e. destruct (notebook_run applyScaleFactors e) as [_ [Hv _]]. exact Hv.
Qed.

(** C6. No run ever issues a request that persists data, and no request is
    issued again after it was refused: a refused request is the last
    exchange of its run. *)
Theorem never_persists_never_retries :
  forall e : Engine,
    Forall (fun ex => persists (fst ex) = false) (trace (execute e)) /\
    (forall r x, In (r, inl x) (trace (execute e)) ->
                 exists before,
                   trace (execute e) = before ++ [(r, inl x)] /\
                   Forall (fun ex => exists v, snd ex = inr v) before).
Proof.
  intros e. split.
  - destruct (notebook_run applyScaleFactors e) as [Hp _].
    apply Forall_forall. intros ex Hin. rewrite forallb_forall in Hp.
    apply negb_true_iff. now apply Hp.
  - intros r x Hin. exact (proj2 (refused_is_last notebook e [] fresh_kernel r x Hin)).
Qed.

Lemma never_persists_never_retries_witness :
  exists before,
    trace (execute no_image_2019)
    = before ++ [(getInfo (mean_ndvi 2019 |> ee.get "B8"),
                  inl (EEException "Image.clip: Parameter 'input' is required."))] /\
    Forall (fun ex => exists v, snd ex = inr v) before.
Proof.
  apply (proj2 (never_persists_never_retries no_image_2019)).
  apply last_exchange_In. vm_compute. reflexivity.
Defined.

(** C7. Two runs that receive the same answers from the outside world end
    with the same table, the same layers on every map, and altogether the
    same local objects, exchanges and outcome. *)
Theorem same_answers_same_results :
  forall e1 e2 : Engine,
    map snd (trace (execute e1)) = map snd (trace (execute e2)) ->
    wine_scores (final (execute e1)) = wine_scores (final (execute e2)) /\
    maps (final (execute e1)) = maps (final (execute e2)) /\
    final (execute e1) = final (execute e2) /\
    trace (execute e1) = trace (execute e2) /\
    outcome (execute e1) = outcome (execute e2).
Proof.
  intros e1 e2 H.
  destruct (same_answers_same_run notebook e1 e2 [] [] fresh_kernel H) as [Hf [Ht Ho]].
  unfold execute. rewrite Hf. repeat split; assumption.
Qed.

Lemma same_answers_same_results_witness :
  wine_scores (final (execute sample_engine))
  = wine_scores (final (execute sample_engine_readonly)) /\
  maps (final (execute sample_engine)) = maps (final (execute sample_engine_readonly)).
Proof.
  assert (H : map snd (trace (execute sample_engine))
              = map snd (trace (execute sample_engine_readonly)))
    by (vm_compute; reflexivity).
  destruct (same_answers_same_results sample_engine sample_engine_readonly H) as [H1 [H2 _]].
  split; assumption.
Defined.

(** C9. Whatever cell 9 does to the Landsat image (the scale factors,
    nothing at all, anything else), the layers called "Landsat NDVI" show
    [landsat_ndvi], whose value at a pixel is (SR_B5 - SR_B4) / (SR_B5 +
    SR_B4) of the bands of the clipped image as the catalogue has them;
    the same expression on the rescaled image gives another value. *)
Theorem landsat_ndvi_ignores_scale_factors :
  (forall (scale : ee.Image -> ee.Image) (e : Engine),
      Forall (fun ex => shows_landsat_ndvi (fst ex))
             (trace (run e [] (notebook_with scale) fresh_kernel))) /\
  (forall scene inside (p : pixel) (n r : Q),
      eval scene inside p (image_2022 |> ee.select "SR_B5") = Some [("SR_B5", n)] ->
      eval scene inside p (image_2022 |> ee.select "SR_B4") = Some [("SR_B4", r)] ->
      eval scene inside p landsat_ndvi = Some [("Landsat NDVI", ((n - r) / (n + r))%Q)]) /\
  (exists q q',
      eval sample_scene sample_inside (0, 0) landsat_ndvi = Some [("Landsat NDVI", q)] /\
      eval sample_scene sample_inside (0, 0) landsat_ndvi_rescaled
      = Some [("Landsat NDVI", q')] /\
      ~ (q == q')%Q).
Proof.
  split; [| split].
  - intros scale e. destruct (notebook_run scale e) as [_ [_ [Hs _]]]. exact Hs.
  - intros scene inside p n r Hn Hr.
    exact (renamed_difference scene inside _ _ _ p _ _ n r Hn Hr).
  - eexists. eexists. split; [vm_compute; reflexivity |].
    split; [vm_compute; reflexivity |]. intros H. vm_compute in H. discriminate H.
Qed.

Lemma landsat_ndvi_ignores_scale_factors_witness :
  eval sample_scene sample_inside (0, 0) landsat_ndvi
  = Some [("Landsat NDVI", ((20000 - 9000) / (20000 + 9000))%Q)].
Proof.
  destruct landsat_ndvi_ignores_scale_factors as [_ [H _]].
  apply H; reflexivity.
Defined.

Lemma vis_params_verbatim_witness :
  rendered (trace (execute sample_engine)) = declared_vis.
Proof.
  destruct (vis_params_verbatim sample_engine) as [rest [H1 H2]].
  assert (Ho : outcome (execute sample_engine) = inr tt) by (vm_compute; reflexivity).
  rewrite (H2 Ho), app_nil_r in H1. exact H1.
Defined.


(** ** The table update of one iteration *)

(** The rows after [df.loc[df['Year'] == x, c] = v] on an existing column. *)
Lemma loc_setitem_rows (x v : pyval) (df : DataFrame) (c : string) (j : nat)
      (series : list pyval) :
  column_index "Year" (columns df) = Some 0%nat ->
  column_index c (columns df) = Some j ->
  df_getitem "Year" df = Some series ->
  loc_setitem (series_eq x series) c v df
  = {| columns := columns df;
       rows := map (fun r => if py_eq (nth 0 r PNone) x then set_nth j v r else r) (rows df) |}.
Proof.
  intros Hy Hc Hs. unfold df_getitem in Hs. rewrite Hy in Hs. inversion Hs; subst series.
  unfold loc_setitem, series_eq. rewrite Hc, map_map, where_mask_map. reflexivity.
Qed.

Lemma run_bind {A B : Type} (m : Py A) (f : A -> Py B) :
  forall (e : Engine) h s,
    run e h (bind m f) s
    = match outcome (run e h m s) with
      | inl x => {| final := final (run e h m s); trace := trace (run e h m s); outcome := inl x |}
      | inr a =>
          let r2 := run e (h ++ trace (run e h m s)) (f a) (final (run e h m s)) in
          {| final := final r2; trace := trace (run e h m s) ++ trace r2; outcome := outcome r2 |}
      end.
Proof.
  induction m as [a | x | r k IH | k IH | s' k IH]; intros e h s; simpl.
  - rewrite app_nil_r. destruct (run e h (f a) s); reflexivity.
  - reflexivity.
  - destruct (e h r) as [x | v]; simpl; [reflexivity |].
    rewrite IH. destruct (outcome (run e (h ++ [(r, inr v)]) (k v) s)); simpl; [reflexivity |].
    now rewrite <- app_assoc.
  - apply IH.
  - apply IH.
Qed.

Lemma year_column (df : DataFrame) :
  columns df = wine_scores_columns ->
  df_getitem "Year" df = Some (map (fun r => nth 0 r PNone) (rows df)).
Proof. intros Hc. unfold df_getitem. rewrite Hc. reflexivity. Qed.

Lemma loc_twice_df (year : Z) (v d : pyval) (df : DataFrame) (s1 s2 : list pyval) :
  columns df = wine_scores_columns ->
  df_getitem "Year" df = Some s1 ->
  df_getitem "Year" (loc_setitem (series_eq (PInt year) s1) "Mean NDVI" v df) = Some s2 ->
  loc_setitem (series_eq (PInt year) s2) "Photo Date" d
              (loc_setitem (series_eq (PInt year) s1) "Mean NDVI" v df)
  = filled year v d df.
Proof.
  intros Hc H1 H2.
  rewrite (loc_setitem_rows (PInt year) v df "Mean NDVI" 2 s1) in *;
    try (rewrite Hc; reflexivity); try exact H1.
  rewrite (loc_setitem_rows (PInt year) d _ "Photo Date" 3 s2);
    try (cbn [columns]; rewrite Hc; reflexivity); try exact H2.
  unfold filled. cbn [columns rows]. f_equal.
  rewrite map_map. apply map_ext. intros r.
  destruct (py_eq (nth 0 r PNone) (PInt year)) eqn:E.
  - rewrite nth_set_nth_other by lia. rewrite E. reflexivity.
  - rewrite E. reflexivity.
Qed.

Lemma loc_twice (year : Z) (v d : pyval) (df : DataFrame) (e : Engine) h s :
  wine_scores s = Some df ->
  columns df = wine_scores_columns ->
  run e h (wine_scores_loc_set "Year" (PInt year) "Mean NDVI" v ;;
           wine_scores_loc_set "Year" (PInt year) "Photo Date" d) s
  = {| final := with_wine_scores (Some (filled year v d df)) s; trace := []; outcome := inr tt |}.
Proof.
  intros Hs Hc. unfold wine_scores_loc_set, var_wine_scores. simpl.
  rewrite Hs. simpl. rewrite (year_column df Hc). simpl.
  set (s1 := map (fun r => nth 0 r PNone) (rows df)).
  set (df1 := loc_setitem (series_eq (PInt year) s1) "Mean NDVI" v df).
  assert (Hc1 : columns df1 = wine_scores_columns).
  { unfold df1, loc_setitem. rewrite Hc. reflexivity. }
  rewrite (year_column df1 Hc1). cbn [bind run modify final trace outcome app].
  pose proof (loc_twice_df year v d df s1 _ Hc (year_column df Hc) (year_column df1 Hc1)) as K.
  fold df1 in K. rewrite K. reflexivity.
Qed.

Lemma run_loc_set (x v : pyval) (c : string) (df : DataFrame) (series : list pyval)
      (e : Engine) h s :
  wine_scores s = Some df ->
  df_getitem "Year" df = Some series ->
  run e h (wine_scores_loc_set "Year" x c v) s
  = {| final := with_wine_scores (Some (loc_setitem (series_eq x series) c v df)) s;
       trace := []; outcome := inr tt |}.
Proof.
  intros Hs Hy. unfold wine_scores_loc_set, var_wine_scores.
  cbn [bind run]. rewrite Hs. cbn [bind run]. rewrite Hy. reflexivity.
Qed.

Ltac keep_table :=
  repeat first
    [ exact Logic.I
    | apply preserves_bind
    | progress intros
    | split
    | progress cbn [preserves]
    | match goal with
      | |- preserves _ (match ?x with _ => _ end) => destruct x
      | |- preserves _ (Map_add_ee_layer _ _ _ _) => unfold Map_add_ee_layer
      | |- preserves _ (var_map _) => unfold var_map
      | |- preserves _ (dict_properties _) => unfold dict_properties
      | |- preserves _ (var_dict _) => unfold var_dict
      | |- preserves _ (round_ _) => unfold round_
      | |- preserves _ (geemap_image_props _) => unfold geemap_image_props
      | |- preserves _ (call _) => unfold call
      | |- preserves _ (modify _) => unfold modify
      | |- preserves _ (print _) => unfold print
      | |- preserves _ (images_setitem _ _) => unfold images_setitem
      end
    | assumption ].

(** X1. When the engine answers the two getInfo requests of an iteration
    with [v] and [d] (and [geemap.image_props], called in between, comes
    back), the iteration leaves the table with [v] and [d] in the
    'Mean NDVI' and 'Photo Date' cells of the rows of its year and nothing
    else changed, whatever happens in the rest of the iteration. *)
Theorem loop_iteration_fills_row :
  forall (e : Engine) (h : list exchange) (s : Notebook) (year : Z) (df : DataFrame)
         (v p d : pyval),
    wine_scores s = Some df ->
    columns df = wine_scores_columns ->
    e h (getInfo (mean_ndvi year |> ee.get "B8")) = inr v ->
    e (h ++ [(getInfo (mean_ndvi year |> ee.get "B8"), inr v)])
      (image_props_of (image year)) = inr p ->
    e (h ++ [(getInfo (mean_ndvi year |> ee.get "B8"), inr v);
             (image_props_of (image year), inr p)])
      (getInfo (image_info year |> ee.get "IMAGE_DATE")) = inr d ->
    wine_scores (final (run e h (loop_body year) s)) = Some (filled year v d df) /\
    (forall i w a b,
        nth_error (rows df) i = Some [PInt year; w; a; b] ->
        nth_error (rows (filled year v d df)) i = Some [PInt year; w; v; d]).
Proof.
  intros e h s year df v p d Hs Hc Hv Hp Hd. split.
  2:{ intros i w a b Hi. unfold filled. cbn [rows]. rewrite nth_error_map, Hi.
      cbn. now rewrite Z.eqb_refl. }
  unfold loop_body, geemap_image_props, call. cbn [bind run]. rewrite Hv.
  cbn [bind run final]. rewrite Hp. cbn [bind run final].
  match goal with
  | |- context [e ?hh (getInfo (ee.get "IMAGE_DATE" ?i))] =>
      replace (e hh (getInfo (ee.get "IMAGE_DATE" i))) with (inr d : response)
        by (symmetry; rewrite <- app_assoc; exact Hd)
  end.
  cbn [bind run final].
  set (h2 := ((h ++ _) ++ _) ++ _).
  rewrite run_bind, (run_loc_set _ _ _ df _ e h2 s Hs (year_column df Hc)).
  cbn [outcome final trace]. rewrite app_nil_r.
  set (df1 := loc_setitem _ _ _ df).
  assert (Hc1 : columns df1 = wine_scores_columns).
  { unfold df1, loc_setitem. rewrite Hc. reflexivity. }
  rewrite run_bind, (run_loc_set _ _ _ df1 _ e h2 (with_wine_scores (Some df1) s) eq_refl
                               (year_column df1 Hc1)).
  cbn [outcome final trace]. rewrite app_nil_r.
  pose proof (loc_twice_df year v d df _ _ Hc (year_column df Hc) (year_column df1 Hc1)) as K.
  fold df1 in K. rewrite K.
  apply (preserves_run (fun s' => wine_scores s' = Some (filled year v d df))).
  - reflexivity.
  - keep_table.
Qed.

Lemma round_value_not_number (v : pyval) : is_number v = false -> round_value v = None.
Proof. destruct v; simpl; intros H; (reflexivity || discriminate H). Qed.

(** An iteration whose mean is not a number: nothing looks at the answer
    before it is stored, and the next two calls are made, before [round]
    raises. *)
Lemma null_mean_iteration :
  forall (e : Engine) (h : list exchange) (s : Notebook) (year : Z) (df : DataFrame)
         (v p d : pyval) (layers : list Layer) (vd : VisDict),
    wine_scores s = Some df ->
    columns df = wine_scores_columns ->
    lookup "ndvi_map" (maps s) = Some layers ->
    lookup "vis_ndvi" (dicts s) = Some vd ->
    is_number v = false ->
    e h (getInfo (mean_ndvi year |> ee.get "B8")) = inr v ->
    e (h ++ [(getInfo (mean_ndvi year |> ee.get "B8"), inr v)])
      (image_props_of (image year)) = inr p ->
    e (h ++ [(getInfo (mean_ndvi year |> ee.get "B8"), inr v);
             (image_props_of (image year), inr p)])
      (getInfo (image_info year |> ee.get "IMAGE_DATE")) = inr d ->
    let res := run e h (loop_body year) s in
    outcome res = inl TypeError /\
    trace res = [(getInfo (mean_ndvi year |> ee.get "B8"), inr v);
                 (image_props_of (image year), inr p);
                 (getInfo (image_info year |> ee.get "IMAGE_DATE"), inr d)] /\
    final res = with_wine_scores (Some (filled year v d df)) s.
Proof.
  intros e h s year df v p d layers vd Hs Hc Hm Hvd Hn Hv Hp Hd res. subst res.
  unfold loop_body, geemap_image_props, call. cbn [bind run]. rewrite Hv.
  cbn [bind run final trace outcome]. rewrite Hp. cbn [bind run final trace outcome].
  match goal with
  | |- context [e ?hh (getInfo (ee.get "IMAGE_DATE" ?i))] =>
      replace (e hh (getInfo (ee.get "IMAGE_DATE" i))) with (inr d : response)
        by (symmetry; rewrite <- app_assoc; exact Hd)
  end.
  cbn [bind run final trace outcome].
  set (h2 := ((h ++ _) ++ _) ++ _).
  rewrite run_bind, (run_loc_set _ _ _ df _ e h2 s Hs (year_column df Hc)).
  cbn [outcome final trace]. rewrite app_nil_r.
  set (df1 := loc_setitem _ _ _ df).
  assert (Hc1 : columns df1 = wine_scores_columns).
  { unfold df1, loc_setitem. rewrite Hc. reflexivity. }
  rewrite run_bind, (run_loc_set _ _ _ df1 _ e h2 (with_wine_scores (Some df1) s) eq_refl
                               (year_column df1 Hc1)).
  cbn [outcome final trace]. rewrite app_nil_r.
  pose proof (loc_twice_df year v d df _ _ Hc (year_column df Hc) (year_column df1 Hc1)) as K.
  fold df1 in K. rewrite K.
  unfold Map_add_ee_layer, var_map, dict_properties, var_dict, round_.
  cbn [bind run with_wine_scores maps dicts final trace outcome app].
  rewrite Hm. cbn [bind run with_wine_scores maps dicts final trace outcome app]. rewrite Hvd.
  cbn [bind run final trace outcome app]. rewrite (round_value_not_number v Hn).
  cbn [bind run final trace outcome app]. repeat split.
Qed.

(** X2. When the mean that comes back is not a number (a null reduction,
    say) the iteration still asks for the image properties and the photo
    date, stores the mean and the date in the table, and only then stops
    with a TypeError at the rounding for the layer name: three calls were
    made, no layer is requested or added, nothing else is changed. *)
Theorem non_number_mean_raises_after_store :
  forall (e : Engine) (h : list exchange) (s : Notebook) (year : Z) (df : DataFrame)
         (v p d : pyval) (layers : list Layer) (vd : VisDict),
    wine_scores s = Some df ->
    columns df = wine_scores_columns ->
    lookup "ndvi_map" (maps s) = Some layers ->
    lookup "vis_ndvi" (dicts s) = Some vd ->
    e h (getInfo (mean_ndvi year |> ee.get "B8")) = inr v ->
    is_number v = false ->
    e (h ++ [(getInfo (mean_ndvi year |> ee.get "B8"), inr v)])
      (image_props_of (image year)) = inr p ->
    e (h ++ [(getInfo (mean_ndvi year |> ee.get "B8"), inr v);
             (image_props_of (image year), inr p)])
      (getInfo (image_info year |> ee.get "IMAGE_DATE")) = inr d ->
    let res := run e h (loop_body year) s in
    outcome res = inl TypeError /\
    trace res = [(getInfo (mean_ndvi year |> ee.get "B8"), inr v);
                 (image_props_of (image year), inr p);
                 (getInfo (image_info year |> ee.get "IMAGE_DATE"), inr d)] /\
    final res = with_wine_scores (Some (filled year v d df)) s /\
    maps (final res) = maps s /\
    images (final res) = images s /\
    outputs (final res) = outputs s.
Proof.
  intros e h s year df v p d layers vd Hs Hc Hm Hvd Hv Hn Hp Hd res.
  destruct (null_mean_iteration e h s year df v p d layers vd Hs Hc Hm Hvd Hn Hv Hp Hd)
    as [H1 [H2 H3]].
  fold res in H1, H2, H3.
  split; [exact H1 |]. split; [exact H2 |]. split; [exact H3 |].
  rewrite H3. repeat split.
Qed.

(** ** Keys and dates of different years *)

Lemma to_int_parses (z : Z) :
  NilZero.int_of_string (NilZero.string_of_int (Z.to_int z)) = Some (Z.to_int z).
Proof.
  apply NilZero.isi; destruct z; simpl; try discriminate;
    intros H; inversion H as [H']; exact (DecimalPos.Unsigned.to_uint_nonnil _ H').
Qed.

Lemma str_injective (a b : Z) : str a = str b -> a = b.
Proof.
  unfold str. intros H.
  assert (K : Some (Z.to_int a) = Some (Z.to_int b)).
  { rewrite <- (to_int_parses a), <- (to_int_parses b). now rewrite H. }
  inversion K as [K']. rewrite <- (DecimalZ.of_to a), <- (DecimalZ.of_to b). now rewrite K'.
Qed.

Lemma lookup_setitem_same {V : Type} (k : string) (v : V) (d : list (string * V)) :
  lookup k (setitem k v d) = Some v.
Proof.
  induction d as [| [k' v'] d IH]; simpl.
  - now rewrite String.eqb_refl.
  - destruct (String.eqb k k') eqn:E; simpl.
    + now rewrite String.eqb_refl.
    + now rewrite E.
Qed.

Lemma lookup_setitem_other {V : Type} (k k0 : string) (v : V) (d : list (string * V)) :
  k0 <> k -> lookup k0 (setitem k v d) = lookup k0 d.
Proof.
  intros Hne. induction d as [| [k' v'] d IH]; simpl.
  - destruct (String.eqb k0 k) eqn:E; [apply String.eqb_eq in E; contradiction | reflexivity].
  - destruct (String.eqb k k') eqn:E; simpl.
    + apply String.eqb_eq in E. subst k'.
      destruct (String.eqb k0 k) eqn:E2; [apply String.eqb_eq in E2; contradiction | reflexivity].
    + destruct (String.eqb k0 k'); [reflexivity | exact IH].
Qed.

Lemma setitem_keys {V : Type} (k : string) (v : V) (d : list (string * V)) :
  map fst (setitem k v d) = if existsb (String.eqb k) (map fst d) then map fst d
                            else map fst d ++ [k].
Proof.
  induction d as [| [k' v'] d IH]; simpl; [reflexivity |].
  destruct (String.eqb k k') eqn:E; simpl.
  - apply String.eqb_eq in E. now subst.
  - rewrite IH. destruct (existsb (String.eqb k) (map fst d)); reflexivity.
Qed.

(** ** Band selection *)

Lemma re_parse_plain (c : ascii) (p : string) :
  plain c = true -> all_plain p = true ->
  re_parse (String c p) = (Lit c, false) :: re_parse p.
Proof.
  intros Hc Hp. unfold plain in Hc. apply andb_true_iff in Hc. destruct Hc as [H1 _].
  apply negb_true_iff in H1. simpl. rewrite H1.
  destruct p as [| c' p']; [reflexivity |].
  simpl in Hp. apply andb_true_iff in Hp. destruct Hp as [Hc' _].
  unfold plain in Hc'. apply andb_true_iff in Hc'. destruct Hc' as [_ H2].
  apply negb_true_iff in H2.
  destruct c' as [b0 b1 b2 b3 b4 b5 b6 b7].
  destruct b0, b1, b2, b3, b4, b5, b6, b7; try reflexivity. discriminate H2.
Qed.

(** A selector without [.] and [*] selects the band of that very name. *)
Lemma matches_plain (p name : string) :
  all_plain p = true -> matches p name = String.eqb name p.
Proof.
  unfold matches. revert name. induction p as [| c p IH]; intros name Hp.
  - destruct name; reflexivity.
  - simpl in Hp. apply andb_true_iff in Hp. destruct Hp as [Hc Hp].
    rewrite (re_parse_plain c p Hc Hp). simpl.
    destruct name as [| c' name]; [reflexivity |].
    simpl. rewrite (IH name Hp). reflexivity.
Qed.

Lemma filter_by_name (name : string) (x : Q) (bs : bands) :
  NoDup (map fst bs) -> In (name, x) bs ->
  filter (fun b => String.eqb (fst b) name) bs = [(name, x)].
Proof.
  induction bs as [| [k v] bs IH]; intros Hnd Hin; [contradiction |].
  simpl in *. inversion Hnd as [| ? ? Hnotin Hnd']; subst.
  destruct Hin as [Heq | Hin].
  - inversion Heq; subst. rewrite String.eqb_refl. f_equal.
    clear IH Hnd Hnd'. induction bs as [| [k' v'] bs IH]; [reflexivity |].
    simpl in *. destruct (String.eqb k' name) eqn:E.
    + apply String.eqb_eq in E. subst. exfalso. apply Hnotin. now left.
    + apply IH. intros H. apply Hnotin. now right.
  - destruct (String.eqb k name) eqn:E.
    + apply String.eqb_eq in E. subst. exfalso. apply Hnotin.
      change name with (fst (name, x)). now apply in_map.
    + now apply IH.
Qed.

Section Distinct.

Variable scene : ee.ImageCollection_ -> pixel -> option bands.
Variable inside : ee.Geometry -> pixel -> bool.

Lemma select_plain (img : ee.Image) (p : pixel) (name : string) (x : Q) (bs : bands) :
  all_plain name = true ->
  eval scene inside p img = Some bs ->
  NoDup (map fst bs) -> In (name, x) bs ->
  eval scene inside p (img |> ee.select name) = Some [(name, x)].
Proof.
  intros Hp He Hnd Hin. simpl. rewrite He. simpl. f_equal.
  rewrite <- (filter_by_name name x bs Hnd Hin).
  apply filter_ext. intros b. now apply matches_plain.
Qed.

End Distinct.

(** X10. On any image with distinct band names that has a B8 and a B4
    band (and whatever else: B8A is not taken for B8), the NDVI of the
    loop is the single band B8 holding the normalised difference of the
    two bands divided by 10000. *)
Theorem ndvi_on_distinct_bands :
  forall scene inside (p : pixel) (year : Z) (bs : bands) (n r : Q),
    eval scene inside p (image year) = Some bs ->
    NoDup (map fst bs) ->
    In ("B8", n) bs -> In ("B4", r) bs ->
    eval scene inside p (ndvi year)
    = Some [("B8", ((n / 10000 - r / 10000) / (n / 10000 + r / 10000))%Q)].
Proof.
  intros scene inside p year bs n r He Hnd Hn Hr.
  pose proof (select_plain scene inside _ p "B8" n bs eq_refl He Hnd Hn) as H8.
  pose proof (select_plain scene inside _ p "B4" r bs eq_refl He Hnd Hr) as H4.
  pose proof (select_divided scene inside _ 10000%Q _ p _ _ H8) as H8'.
  pose proof (select_divided scene inside _ 10000%Q _ p _ _ H4) as H4'.
  exact (normalized_difference scene inside _ _ p _ _ _ _ H8' H4').
Qed.

(** ** The range of the index *)

Lemma normalized_difference_range (n r : Q) :
  (0 <= n)%Q -> (0 <= r)%Q -> (-1 <= (n - r) / (n + r) <= 1)%Q.
Proof.
  intros Hn Hr.
  destruct (Qeq_dec (n + r) 0) as [Hz | Hnz].
  - assert (E : ((n - r) / (n + r) == 0)%Q).
    { unfold Qdiv. rewrite Hz. unfold Qinv. simpl. ring. }
    rewrite E. split; discriminate.
  - assert (Hpos : (0 < n + r)%Q).
    { apply Qle_lteq in Hn. apply Qle_lteq in Hr.
      destruct (Qlt_le_dec 0 (n + r)) as [H | H]; [exact H |].
      exfalso. apply Hnz. apply Qle_antisym; [exact H |].
      rewrite <- (Qplus_0_l 0). apply Qplus_le_compat.
      - destruct Hn as [Hn | Hn]; [now apply Qlt_le_weak | rewrite <- Hn; apply Qle_refl].
      - destruct Hr as [Hr | Hr]; [now apply Qlt_le_weak | rewrite <- Hr; apply Qle_refl]. }
    split.
    + apply Qle_shift_div_l; [exact Hpos |].
      assert (E : (-1 * (n + r) == - n - r)%Q) by ring. rewrite E.
      unfold Qminus. apply Qplus_le_compat; [| apply Qle_refl].
      apply Qle_trans with 0%Q; [| exact Hn].
      rewrite <- (Qopp_involutive 0). apply Qopp_le_compat. exact Hn.
    + apply Qle_shift_div_r; [exact Hpos |].
      assert (E : (1 * (n + r) == n + r)%Q) by ring. rewrite E.
      unfold Qminus. apply Qplus_le_compat; [apply Qle_refl |].
      apply Qle_trans with 0%Q; [| exact Hr].
      rewrite <- (Qopp_involutive 0). apply Qopp_le_compat. exact Hr.
Qed.

(** ** applyScaleFactors *)

Lemma band_arith_number (f : Q -> Q -> Q) (bs : bands) (c : string) (k : Q) :
  band_arith f bs [(c, k)] = Some (map (fun b => (fst b, f (snd b) k)) bs).
Proof.
  unfold band_arith. destruct bs as [| b1 [| b2 bs']]; reflexivity.
Qed.

Lemma lookup_absent {V : Type} (k : string) (d : list (string * V)) :
  ~ In k (map fst d) -> lookup k d = None.
Proof.
  induction d as [| [k' v] d IH]; simpl; intros H; [reflexivity |].
  destruct (String.eqb k k') eqn:E.
  - apply String.eqb_eq in E. subst. exfalso. apply H. now left.
  - apply IH. intros K. apply H. now right.
Qed.

Lemma rescale_names (P : string -> bool) (g : Q -> Q) (bs : bands) (k : string) :
  In k (map fst (rescale P g bs)) -> In k (map fst bs).
Proof.
  unfold rescale. rewrite map_map. simpl. intros H.
  apply in_map_iff in H. destruct H as [b [Hb Hin]]. apply filter_In in Hin.
  subst. apply in_map. tauto.
Qed.

Lemma lookup_rescale (P : string -> bool) (g : Q -> Q) (bs : bands) (b : string * Q) :
  NoDup (map fst bs) -> In b bs ->
  lookup (fst b) (rescale P g bs) = if P (fst b) then Some (g (snd b)) else None.
Proof.
  induction bs as [| a bs IH]; intros Hnd Hin; [contradiction |].
  inversion Hnd as [| ? ? Hnotin Hnd']; subst.
  unfold rescale in *. simpl. destruct Hin as [Heq | Hin].
  - subst a. destruct (P (fst b)) eqn:E; simpl.
    + now rewrite String.eqb_refl.
    + apply lookup_absent. intros K. apply Hnotin. exact (rescale_names P g bs _ K).
  - assert (Hne : fst b <> fst a).
    { intros K. apply Hnotin. rewrite <- K. now apply in_map. }
    destruct (P (fst a)); simpl.
    + apply String.eqb_neq in Hne. rewrite Hne. now apply IH.
    + now apply IH.
Qed.

Lemma has_band_In (k : string) (bs : bands) : has_band k bs = true <-> In k (map fst bs).
Proof.
  unfold has_band. rewrite existsb_exists. split.
  - intros [b [Hin E]]. apply String.eqb_eq in E. subst. now apply in_map.
  - intros H. apply in_map_iff in H. destruct H as [b [E Hin]]. exists b. split; [exact Hin |].
    subst. apply String.eqb_refl.
Qed.

Lemma filter_none {X : Type} (f : X -> bool) (l : list X) :
  (forall x, In x l -> f x = false) -> filter f l = [].
Proof.
  induction l as [| a l IH]; intros H; [reflexivity |].
  simpl. rewrite (H a (or_introl eq_refl)). apply IH. intros x Hx. apply H. now right.
Qed.

(** Overwriting with rescaled bands of the same image replaces, in place,
    the bands that were rescaled. *)
Lemma add_bands_rescale (P : string -> bool) (g : Q -> Q) (bs : bands)
      (h : string * Q -> string * Q) :
  NoDup (map fst bs) ->
  (forall b, fst (h b) = fst b) ->
  add_bands (rescale P g bs) None true (map h bs)
  = map (fun b => if P (fst b) then (fst b, g (snd b)) else h b) bs.
Proof.
  intros Hnd Hh. unfold add_bands.
  assert (Hnames : map fst (map h bs) = map fst bs).
  { rewrite map_map. apply map_ext. exact Hh. }
  rewrite filter_none.
  2:{ intros c Hc. apply negb_false_iff, has_band_In. rewrite Hnames.
      apply (rescale_names P g). now apply in_map. }
  rewrite app_nil_r, map_map. apply map_ext_in. intros b Hb. cbv beta.
  pose proof (Hh b) as Hb'. set (hb := h b) in *.
  rewrite Hb', (lookup_rescale P g bs b Hnd Hb).
  destruct (P (fst b)); reflexivity.
Qed.

Section ScaleFactors.

Variable scene : ee.ImageCollection_ -> pixel -> option bands.
Variable inside : ee.Geometry -> pixel -> bool.

Lemma eval_rescaled (img : ee.Image) (pat : string) (k c : Q) (p : pixel) (bs : bands) :
  eval scene inside p img = Some bs ->
  eval scene inside p (img |> ee.select pat |> ee.multiply k |> ee.add c)
  = Some (rescale (matches pat) (fun x => (x * k + c)%Q) bs).
Proof.
  intros He. simpl. rewrite He. simpl. rewrite band_arith_number. simpl.
  rewrite band_arith_number. unfold rescale. rewrite map_map. reflexivity.
Qed.

(** X9. applyScaleFactors keeps the bands of an image in place, by name:
    the thermal bands ST_B... become x * 0.00341802 + 149.0, the optical
    bands SR_B. become x * 0.0000275 - 0.2, every other band is as it was. *)
Theorem applyScaleFactors_bands (img : ee.Image) (p : pixel) (bs : bands) :
  eval scene inside p img = Some bs ->
  NoDup (map fst bs) ->
  eval scene inside p (applyScaleFactors img) = Some (map scaled_band bs).
Proof.
  intros He Hnd. unfold applyScaleFactors. cbv zeta.
  pose proof (eval_rescaled img "SR_B." 0.0000275%Q (-0.2)%Q p bs He) as Ho.
  pose proof (eval_rescaled img "ST_B.*" 0.00341802%Q 149.0%Q p bs He) as Ht.
  remember (img |> ee.select "SR_B." |> ee.multiply 0.0000275%Q |> ee.add (-0.2)%Q) as optical.
  remember (img |> ee.select "ST_B.*" |> ee.multiply 0.00341802%Q |> ee.add 149.0%Q) as thermal.
  cbn [eval]. rewrite He, Ho, Ht. f_equal.
  pose proof (add_bands_rescale (matches "SR_B.") (fun x => (x * 0.0000275 + -0.2)%Q) bs
                                (fun b => b) Hnd (fun b => eq_refl)) as K.
  rewrite map_id in K. rewrite K.
  rewrite (add_bands_rescale _ _ bs _ Hnd).
  - apply map_ext. intros b. unfold scaled_band. reflexivity.
  - intros b. destruct (matches "SR_B." (fst b)); reflexivity.
Qed.

End ScaleFactors.

(** ** Completed runs *)

Arguments run_post : simpl never.

Ltac solve_colorbars :=
  repeat (apply Forall_cons; [ cbn; first [ exact I | repeat split ] | ]);
  apply Forall_nil.

Ltac solve_complete :=
  unfold complete_state;
  eexists; eexists; eexists;
  split; [reflexivity |];
  split; [reflexivity |];
  split; [reflexivity |];
  split; [reflexivity |];
  split; [reflexivity |];
  split; [reflexivity |];
  split; [reflexivity |];
  split; [reflexivity |];
  repeat (apply Forall2_cons; [ eexists; split; [eassumption | reflexivity] | ]);
  apply Forall2_nil.

Ltac index_of v l n :=
  lazymatch l with
  | (_, inr v) :: _ => n
  | _ :: ?l' => index_of v l' (S n)
  end.

Ltac find_in :=
  lazymatch goal with
  | |- In (_, inr ?v) ?l =>
      let n := index_of v l O in
      apply (nth_error_In l n); reflexivity
  end.

Ltac solve_cells :=
  unfold cells_from_answers;
  lazymatch goal with
  | |- match wine_scores ?s with _ => _ end =>
      let w := eval cbn in (wine_scores s) in
      change (wine_scores s) with w
  end;
  cbv beta iota; cbn [rows app];
  first [ exact I
        | repeat (apply Forall2_cons;
                  [ cbn [nth]; split; first [ left; reflexivity | right; find_in ] | ]);
          apply Forall2_nil ].

Ltac solve_run_post :=
  unfold wp, run_post;
  split; [ solve_colorbars
  | split; [ cbn; lia
  | split; [ cbn; first [ exact I | split; eexists; reflexivity ]
  | split; [ eexists; reflexivity
  | split; [ solve_cells
           | first [ exact I
                   | split; [reflexivity
                     | split; [reflexivity
                     | split; [reflexivity | solve_complete]]] ] ] ] ] ] ].

Lemma notebook_wp_complete : wp notebook [] fresh_kernel run_post.
Proof.
  unfold notebook, notebook_with.
  py_exec solve_run_post.
Qed.

Lemma loop_iteration_fills_row_witness :
  wine_scores (final (run sample_engine [] (loop_body 2018) before_loop))
  = Some (filled 2018 (PFloat (inject_Z 0 / 100)) (PStr "2022-08-10")
                 (pandas_DataFrame scores wine_scores_columns)) /\
  nth_error (rows (filled 2018 (PFloat (inject_Z 0 / 100)) (PStr "2022-08-10")
                          (pandas_DataFrame scores wine_scores_columns))) 1
  = Some [PInt 2018; PFloat 92; PFloat (inject_Z 0 / 100); PStr "2022-08-10"].
Proof.
  destruct (loop_iteration_fills_row sample_engine [] before_loop 2018
              (pandas_DataFrame scores wine_scores_columns)
              (PFloat (inject_Z 0 / 100)) PNone (PStr "2022-08-10")
              eq_refl eq_refl eq_refl eq_refl eq_refl) as [H1 H2].
  split; [exact H1 |]. exact (H2 1%nat (PFloat 92) PNone (PStr "") eq_refl).
Defined.

Lemma non_number_mean_raises_after_store_witness :
  outcome (run null_mean_engine [] (loop_body 2018) before_loop) = inl TypeError /\
  final (run null_mean_engine [] (loop_body 2018) before_loop)
  = with_wine_scores
      (Some (filled 2018 PNone (PStr "2022-08-10")
                    (pandas_DataFrame scores wine_scores_columns)))
      before_loop.
Proof.
  destruct (non_number_mean_raises_after_store null_mean_engine [] before_loop 2018
              (pandas_DataFrame scores wine_scores_columns) PNone PNone (PStr "2022-08-10")
              [] vis_ndvi eq_refl eq_refl eq_refl eq_refl eq_refl eq_refl eq_refl eq_refl)
    as [H1 [_ [H3 _]]].
  split; assumption.
Defined.

Lemma notebook_run_complete (e : Engine) :
  run_post (trace (execute e)) (final (execute e)) (outcome (execute e)).
Proof.
  exact (wp_sound notebook [] fresh_kernel run_post e notebook_wp_complete).
Qed.

(** ** Failures *)



(** ** The wine-scores table in a run *)

(** C4, as stated, fails: the table does not keep the contents it was
    constructed with. *)
Lemma wine_scores_is_not_static :
  ~ (forall (e : Engine) (df : DataFrame),
        wine_scores (final (execute e)) = Some df ->
        df = pandas_DataFrame scores wine_scores_columns).
Proof.
  intros H.
  destruct (wine_scores (final (execute sample_engine))) as [df |] eqn:E;
    vm_compute in E; [| discriminate E].
  inversion E as [E']. 
  specialize (H sample_engine df).
  assert (K : wine_scores (final (execute sample_engine)) = Some df)
    by (rewrite <- E'; vm_compute; reflexivity).
  specialize (H K). rewrite <- E' in H. discriminate H.
Qed.

(** C4 (amended). In every run the wine-scores table, once constructed,
    has the four columns (year, wine score, mean NDVI, photo date) and six
    rows of four cells; its 'Year' column holds the years and its
    'Wine Score' column the scores entered by hand, as pandas keeps them
    (floats, the two missing scores as NaN); and the other two columns are
    the ones the loop assigns: a 'Mean NDVI' cell is None, as constructed,
    or the answer to the mean request of the year of its row, a
    'Photo Date' cell is the empty string or the answer to the date
    request of that year. *)
Theorem wine_scores_shape :
  forall (e : Engine) (df : DataFrame),
    wine_scores (final (execute e)) = Some df ->
    columns df = wine_scores_columns /\
    List.length (rows df) = 6%nat /\
    Forall (fun r => List.length r = 4%nat) (rows df) /\
    df_getitem "Year" df
    = Some [PInt 2017; PInt 2018; PInt 2019; PInt 2020; PInt 2021; PInt 2022] /\
    df_getitem "Wine Score" df
    = Some [PFloat 93; PFloat 92; PFloat 95; PFloat 94; PNaN; PNaN] /\
    Forall2 (fun year r =>
               (nth 2 r PNone = PNone \/
                In (getInfo (mean_ndvi year |> ee.get "B8"), inr (nth 2 r PNone))
                   (trace (execute e))) /\
               (nth 3 r PNone = PStr "" \/
                In (getInfo (image_info year |> ee.get "IMAGE_DATE"), inr (nth 3 r PNone))
                   (trace (execute e))))
            years (rows df).
Proof.
  intros e df Hdf.
  destruct (notebook_run applyScaleFactors e) as [_ [_ [_ [Ht _]]]].
  fold notebook in Ht. fold (execute e) in Ht. rewrite Hdf in Ht.
  destruct Ht as [Hc [Hl [Hr [Hy Hw]]]].
  destruct (notebook_run_complete e) as [_ [_ [_ [_ [Hcells _]]]]].
  unfold cells_from_answers in Hcells. rewrite Hdf in Hcells.
  repeat split; try assumption.
  apply Forall_forall. intros r Hin.
  rewrite forallb_forall in Hr. now apply Nat.eqb_eq, Hr.
Qed.

Lemma wine_scores_shape_witness :
  exists df,
    wine_scores (final (execute sample_engine)) = Some df /\
    columns df = wine_scores_columns /\
    List.length (rows df) = 6%nat /\
    df_getitem "Wine Score" df
    = Some [PFloat 93; PFloat 92; PFloat 95; PFloat 94; PNaN; PNaN] /\
    df_getitem "Photo Date" df
    = Some [PStr "2022-08-10"; PStr "2022-08-10"; PStr "2022-08-10";
            PStr "2022-08-10"; PStr "2022-08-10"; PStr "2022-08-10"].
Proof.
  destruct (wine_scores (final (execute sample_engine))) as [df |] eqn:E;
    [| vm_compute in E; discriminate E].
  exists df. split; [reflexivity |].
  destruct (wine_scores_shape sample_engine df E) as [Hc [Hl [_ [_ [Hw _]]]]].
  split; [exact Hc |]. split; [exact Hl |]. split; [exact Hw |].
  vm_compute in E. inversion E. reflexivity.
Defined.

(** X3. At the end of a run that completes, the [images] dict has one
    entry per year, keyed by the year as a string and in the order of
    [years]; each holds the NDVI expression of its year and exactly the
    mean that the table shows in the 'Mean NDVI' column for that year. *)
Theorem images_agree_with_table :
  forall e : Engine,
    outcome (execute e) = inr tt ->
    exists df d,
      wine_scores (final (execute e)) = Some df /\
      images (final (execute e)) = Some d /\
      map fst d = ["2017"; "2018"; "2019"; "2020"; "2021"; "2022"] /\
      map (fun kv => snd (snd kv)) d = map ndvi years /\
      df_getitem "Mean NDVI" df = Some (map (fun kv => fst (snd kv)) d).
Proof.
  intros e Ho. destruct (notebook_run_complete e) as [_ [_ [_ [_ [_ H]]]]]. rewrite Ho in H.
  destruct H as [_ [_ [_ [df [d [l [H1 [H2 [H3 [H4 [H5 _]]]]]]]]]]].
  exists df, d. repeat split; assumption.
Qed.

Lemma images_agree_with_table_witness :
  exists df d,
    wine_scores (final (execute sample_engine)) = Some df /\
    images (final (execute sample_engine)) = Some d /\
    df_getitem "Mean NDVI" df = Some (map (fun kv => fst (snd kv)) d).
Proof.
  assert (Ho : outcome (execute sample_engine) = inr tt) by (vm_compute; reflexivity).
  destruct (images_agree_with_table sample_engine Ho) as [df [d [H1 [H2 [_ [_ H5]]]]]].
  exists df, d. repeat split; assumption.
Defined.

(** X4. At the end of a run that completes, the four maps hold, in order:
    the rescaled Landsat image twice and the Landsat NDVI; the scaled
    Sentinel image twice; the Landsat and Sentinel NDVI side by side; the
    NDVI of every year. *)
Theorem maps_show_the_computed_images :
  forall e : Engine,
    outcome (execute e) = inr tt ->
    map (fun m => (fst m, map ee_object (snd m))) (maps (final (execute e)))
    = [("burgundy_map", [landsat_8_data_2022; landsat_8_data_2022; landsat_ndvi]);
       ("sentinel_map", [sentinel_2022_data; sentinel_2022_data]);
       ("split", [landsat_ndvi; sentinel_ndvi]);
       ("ndvi_map", map ndvi years)].
Proof.
  intros e Ho. destruct (notebook_run_complete e) as [_ [_ [_ [_ [_ H]]]]]. rewrite Ho in H.
  destruct H as [_ [_ [_ [df [d [l [_ [_ [_ [_ [_ [H6 _]]]]]]]]]]]]. exact H6.
Qed.

Lemma maps_show_the_computed_images_witness :
  map (fun m => (fst m, List.length (snd m))) (maps (final (execute sample_engine)))
  = [("burgundy_map", 3%nat); ("sentinel_map", 2%nat); ("split", 2%nat); ("ndvi_map", 6%nat)].
Proof.
  assert (Ho : outcome (execute sample_engine) = inr tt) by (vm_compute; reflexivity).
  pose proof (maps_show_the_computed_images sample_engine Ho) as H.
  apply (f_equal (map (fun m : string * list ee.Image => (fst m, List.length (snd m))))) in H.
  rewrite map_map in H. cbn [fst snd] in H.
  rewrite (map_ext _ (fun m : string * list Layer => (fst m, List.length (snd m)))) in H
    by (intros m; now rewrite length_map).
  exact H.
Defined.

(** X5. At the end of a run that completes, the layers of the year map
    are named after the table: the name of the layer of a year starts with
    the 'Photo Date' cell of that year and ends with the rounding of its
    'Mean NDVI' cell. *)
Theorem year_layers_named_after_table :
  forall e : Engine,
    outcome (execute e) = inr tt ->
    exists df l means,
      wine_scores (final (execute e)) = Some df /\
      lookup "ndvi_map" (maps (final (execute e))) = Some l /\
      df_getitem "Mean NDVI" df = Some means /\
      df_getitem "Photo Date" df
      = Some (map (fun x => match layer_name x with
                            | Fmt date :: _ => date
                            | _ => PNone
                            end) l) /\
      Forall2 (fun mean x => exists r, round_value mean = Some r /\
                                       nth 2 (layer_name x) (Text "") = Fmt r)
              means l.
Proof.
  intros e Ho. destruct (notebook_run_complete e) as [_ [_ [_ [_ [_ H]]]]]. rewrite Ho in H.
  destruct H as [_ [_ [_ [df [d [l [H1 [_ [_ [_ [H5 [_ [H7 [H8 H9]]]]]]]]]]]]]].
  exists df, l, (map (fun kv => fst (snd kv)) d). repeat split; assumption.
Qed.

Lemma year_layers_named_after_table_witness :
  exists df l,
    wine_scores (final (execute sample_engine)) = Some df /\
    lookup "ndvi_map" (maps (final (execute sample_engine))) = Some l /\
    df_getitem "Photo Date" df
    = Some (map (fun x => match layer_name x with
                          | Fmt date :: _ => date
                          | _ => PNone
                          end) l).
Proof.
  assert (Ho : outcome (execute sample_engine) = inr tt) by (vm_compute; reflexivity).
  destruct (year_layers_named_after_table sample_engine Ho)
    as [df [l [means [H1 [H2 [_ [H4 _]]]]]]].
  exists df, l. repeat split; assumption.
Defined.

(** X6. In every run, every colour bar is requested with the palette, the
    minimum and the maximum of [vis_ndvi], the parameters the NDVI layers
    are rendered with. *)
Theorem colorbars_use_vis_ndvi :
  forall (e : Engine) (m : string) (colors vmin vmax : vis_value)
         (layer position : option string) (a : response),
    In (add_colorbar_branca m colors vmin vmax layer position, a) (trace (execute e)) ->
    lookup "palette" (vis_properties vis_ndvi) = Some colors /\
    lookup "min" (vis_properties vis_ndvi) = Some vmin /\
    lookup "max" (vis_properties vis_ndvi) = Some vmax.
Proof.
  intros e m colors vmin vmax layer position a Hin.
  destruct (notebook_run_complete e) as [H _].
  rewrite Forall_forall in H. exact (H _ Hin).
Qed.

Lemma colorbars_use_vis_ndvi_witness :
  lookup "min" (vis_properties vis_ndvi) = Some (VNum (-0.2)) /\
  lookup "max" (vis_properties vis_ndvi) = Some (VNum 1.0).
Proof.
  assert (Hin : In (add_colorbar_branca "ndvi_map"
                      (VStrs ["FFFFFF"; "CE7E45"; "DF923D"; "F1B555"; "FCD163"; "99B718";
                              "74A901"; "66A000"; "529400"; "3E8601"; "207401"; "056201";
                              "004C00"; "023B01"; "012E01"; "011D01"; "011301"])
                      (VNum (-0.2)) (VNum 1.0) None (Some "bottomright"), inr PNone)
                   (trace (execute sample_engine))).
  { apply last_exchange_In. vm_compute. reflexivity. }
  destruct (colorbars_use_vis_ndvi sample_engine _ _ _ _ _ _ _ Hin) as [_ [H2 H3]].
  split; assumption.
Defined.



(** X8. In every run, however it ends, the [images] dict holds the entries
    of the first years of [years], in order and without gaps, and the
    mean of each entry is the one in the table. *)
Theorem loop_progress_is_a_prefix :
  forall (e : Engine) (d : list (string * (pyval * ee.Image))),
    images (final (execute e)) = Some d ->
    exists df,
      wine_scores (final (execute e)) = Some df /\
      (exists rest, map fst d ++ rest = ["2017"; "2018"; "2019"; "2020"; "2021"; "2022"]) /\
      (exists rest, Some (map (fun kv => fst (snd kv)) d ++ rest)
                    = df_getitem "Mean NDVI" df).
Proof.
  intros e d Hd. destruct (notebook_run_complete e) as [_ [_ [H _]]].
  unfold loop_progress in H. rewrite Hd in H.
  destruct (wine_scores (final (execute e))) as [df |]; [| contradiction].
  exists df. split; [reflexivity | exact H].
Qed.

Lemma loop_progress_is_a_prefix_witness :
  exists d df,
    images (final (execute no_image_2019)) = Some d /\
    wine_scores (final (execute no_image_2019)) = Some df /\
    exists rest, map fst d ++ rest = ["2017"; "2018"; "2019"; "2020"; "2021"; "2022"].
Proof.
  destruct (images (final (execute no_image_2019))) as [d |] eqn:E;
    [| vm_compute in E; discriminate E].
  destruct (loop_progress_is_a_prefix no_image_2019 d E) as [df [Hdf [Hr _]]].
  exists d, df. repeat split; assumption.
Defined.

(** ** Sample scenes *)

Lemma landsat_bands_distinct : NoDup (map fst landsat_bands).
Proof.
  repeat (apply NoDup_cons; [simpl; intuition discriminate |]). apply NoDup_nil.
Qed.

Lemma sentinel_bands_distinct : NoDup (map fst sentinel_bands).
Proof.
  repeat (apply NoDup_cons; [simpl; intuition discriminate |]). apply NoDup_nil.
Qed.

Lemma applyScaleFactors_bands_witness :
  eval (fun _ _ => Some landsat_bands) sample_inside (0, 0) (applyScaleFactors image_2022)
  = Some [("SR_B1", 8000 * 0.0000275 + -0.2); ("SR_B2", 8500 * 0.0000275 + -0.2);
          ("SR_B3", 9500 * 0.0000275 + -0.2); ("SR_B4", 9000 * 0.0000275 + -0.2);
          ("SR_B5", 20000 * 0.0000275 + -0.2); ("SR_B6", 15000 * 0.0000275 + -0.2);
          ("SR_B7", 11000 * 0.0000275 + -0.2); ("SR_QA_AEROSOL", 96);
          ("ST_B10", 44000 * 0.00341802 + 149.0); ("ST_QA", 300); ("QA_PIXEL", 21824)]%Q.
Proof.
  exact (applyScaleFactors_bands (fun _ _ => Some landsat_bands) sample_inside
           image_2022 (0, 0) landsat_bands eq_refl landsat_bands_distinct).
Defined.

Lemma ndvi_on_distinct_bands_witness :
  eval (fun _ _ => Some sentinel_bands) sample_inside (0, 0) (ndvi 2020)
  = Some [("B8", ((3000 / 10000 - 1000 / 10000) / (3000 / 10000 + 1000 / 10000))%Q)].
Proof.
  apply (ndvi_on_distinct_bands (fun _ _ => Some sentinel_bands) sample_inside (0, 0) 2020
           sentinel_bands 3000 1000 eq_refl sentinel_bands_distinct).
  - simpl. tauto.
  - simpl. tauto.
Defined.

(** X11. Where the two bands are not negative, every NDVI the notebook
    computes lies between -1 and 1 (it is 0 where both bands are 0). *)
Theorem ndvi_within_range :
  forall scene inside (p : pixel) (n r : Q),
    (0 <= n)%Q -> (0 <= r)%Q ->
    (eval scene inside p landsat_NIR = Some [("SR_B5", n)] ->
     eval scene inside p landsat_red = Some [("SR_B4", r)] ->
     exists q, eval scene inside p landsat_ndvi = Some [("Landsat NDVI", q)] /\
               (-1 <= q <= 1)%Q) /\
    (eval scene inside p sentinel_NIR = Some [("B8", n)] ->
     eval scene inside p sentinel_red = Some [("B4", r)] ->
     exists q, eval scene inside p sentinel_ndvi = Some [("Sentinel NDVI", q)] /\
               (-1 <= q <= 1)%Q) /\
    (forall year,
        eval scene inside p (NIR year) = Some [("B8", n)] ->
        eval scene inside p (red year) = Some [("B4", r)] ->
        exists q, eval scene inside p (ndvi year) = Some [("B8", q)] /\ (-1 <= q <= 1)%Q).
Proof.
  intros scene inside p n r Hn Hr. split; [| split].
  - intros H1 H2. eexists. split.
    + exact (renamed_difference scene inside _ _ _ p _ _ n r H1 H2).
    + now apply normalized_difference_range.
  - intros H1 H2. eexists. split.
    + exact (renamed_difference scene inside _ _ _ p _ _ n r H1 H2).
    + now apply normalized_difference_range.
  - intros year H1 H2. eexists. split.
    + exact (normalized_difference scene inside _ _ p _ _ n r H1 H2).
    + now apply normalized_difference_range.
Qed.

Lemma ndvi_within_range_witness :
  exists q, eval sample_scene sample_inside (0, 0) landsat_ndvi = Some [("Landsat NDVI", q)] /\
            (-1 <= q <= 1)%Q.
Proof.
  assert (Hn : (0 <= 20000)%Q) by discriminate.
  assert (Hr : (0 <= 9000)%Q) by discriminate.
  destruct (ndvi_within_range sample_scene sample_inside (0, 0) 20000 9000 Hn Hr) as [H _].
  exact (H eq_refl eq_refl).
Defined.

(** ** Different years *)

Lemma append_length (s t : string) :
  String.length (s ++ t) = (String.length s + String.length t)%nat.
Proof. induction s as [| c s IH]; simpl; [reflexivity | now rewrite IH]. Qed.

Lemma append_cancel_r (s1 s2 t : string) : (s1 ++ t)%string = (s2 ++ t)%string -> s1 = s2.
Proof.
  revert s2. induction s1 as [| c s1 IH]; intros [| c2 s2] H; simpl in H.
  - reflexivity.
  - exfalso. apply (f_equal String.length) in H. simpl in H. rewrite append_length in H. lia.
  - exfalso. apply (f_equal String.length) in H. simpl in H. rewrite append_length in H. lia.
  - inversion H. f_equal. now apply IH.
Qed.

(** X12. Different years never share anything: their string forms differ,
    so a later entry of [images] never overwrites an earlier one, and
    their date filters differ, so each year has a collection of its own. *)
Theorem years_do_not_collide :
  forall y1 y2 : Z,
    y1 <> y2 ->
    str y1 <> str y2 /\
    image y1 <> image y2 /\
    (forall (V : Type) (v1 v2 : V) (d : list (string * V)),
        lookup (str y1) (setitem (str y2) v2 (setitem (str y1) v1 d)) = Some v1).
Proof.
  intros y1 y2 Hne.
  assert (Hs : str y1 <> str y2) by (intros H; apply Hne; now apply str_injective).
  split; [exact Hs |]. split.
  - intros H. unfold image in H. inversion H as [[H1 H2]].
    apply Hs. exact (append_cancel_r _ _ _ H1).
  - intros V v1 v2 d. rewrite lookup_setitem_other by exact Hs.
    apply lookup_setitem_same.
Qed.

Lemma years_do_not_collide_witness :
  str 2017 <> str 2018 /\ image 2017 <> image 2018.
Proof.
  assert (H : 2017 <> 2018) by discriminate.
  destruct (years_do_not_collide 2017 2018 H) as [H1 [H2 _]]. split; assumption.
Defined.
